(** * PikIntercomCamera: the camera entity of the Pik intercom integration

    A shallow embedding of [custom_components/pik_intercom/camera.py]:
    the snapshot accessor [async_camera_image] with its failure counter,
    the [retrieval_error_threshold] property and the [all_stream_urls]
    state attribute, followed by the properties the specification states
    about them; then the platform setup, the entity's identifiers and
    name, and further properties of the same accessors. *)

From Stdlib Require Import ZArith List String Ascii Lia.
From Stdlib Require Import DecimalString DecimalPos DecimalZ.
From Stdlib Require Strings.Byte.
From stdpp Require Import base gmap strings list.
Import ListNotations.

Local Open Scope string_scope.
Local Open Scope list_scope.
Local Open Scope Z_scope.

(** ** Data model *)

Definition bytes := list Byte.byte.

(** Python truthiness of an [Optional[str]]: [None] and the empty string
    are both falsy. *)
Definition truthy (s : option string) : bool :=
  match s with
  | None => false
  | Some "" => false
  | Some _ => true
  end.

(** Modelled from the spec: the declaration of the device's [video]
    attribute ([api.py]) is not part of the sources.  The specification
    calls it "a multi-valued mapping of quality -> stream source"; the
    entity reads it through [keys()] and [getall(key)], the interface of
    [multidict.MultiDict]: an ordered list of (key, value) items in which
    a key may occur several times. *)
Definition MultiDict := list (string * string).

(** The fields of the vendor's device object that the camera entity
    reads.  The object is owned by the API client. *)
Record Device := {
  property_id : Z;
  photo_url : option string;
  stream_url : option string;
  video : option MultiDict;
  face_detection : bool
}.

(** Exceptions: the API client's domain exception, [KeyError] from a
    dictionary subscript, and any other exception class. *)
Inductive exn :=
| PikIntercomException (msg : string)
| KeyError (key : string)
| OtherException (msg : string).

Inductive outcome (A : Type) :=
| Return (a : A)
| Raise (e : exn).
Arguments Return {A} a.
Arguments Raise {A} e.

(** Modelled from the spec: [const.py] is not part of the sources; the
    configuration key under which the "retrieval-error-threshold value"
    is stored. *)
Definition CONF_RETRIEVAL_ERROR_THRESHOLD : string := "retrieval_error_threshold".

(** What a call of the entity finds around it: [hass.data[DATA_FINAL_CONFIG]]
    (entry id, then option name, to integer value), the current contents of
    the device object, and how the three awaited operations answer. *)
Record World := {
  final_config : gmap string (gmap string Z);
  intercom_device : Device;
  ffmpeg_get_image : string -> option Z -> option Z -> outcome (option bytes);
  get_snapshot : outcome bytes;
  update_property_intercoms : Z -> outcome unit
}.

(** The entity's own attributes. *)
Record Camera := {
  entity_id : string;
  config_entry_id : string;
  failed_retrieval_counter : Z
}.

Definition with_counter (self : Camera) (n : Z) : Camera :=
  {| entity_id := entity_id self;
     config_entry_id := config_entry_id self;
     failed_retrieval_counter := n |}.

(** ** Effects

    Side effects are recorded in program order: log records, awaited
    calls of the media helper and of the API object, and assignments to
    [self._failed_retrieval_counter]. *)

Inductive level := DEBUG | WARNING | ERROR.

Inductive message :=
| FetchingSnapshotFromVideoFeed
| VideoSourceDidNotProvideAnyImage
| RetrievedSnapshotFromVideoFeed
| NoVideoSourceAvailable
| RetrievalError (counter threshold : Z) (error : string)
| RetrievalErrorThresholdReached (threshold : Z).

Inductive event :=
| Log (lvl : level) (entity : string) (msg : message)
| FfmpegGetImage (url : string) (width height : option Z)
| GetSnapshot
| UpdatePropertyIntercoms (property : Z)
| SetCounter (n : Z).

(** Reader over the world, state over the entity, writer of the events,
    and exceptions.  The state and the events survive a raise. *)
Definition M (A : Type) : Type :=
  World -> Camera -> outcome A * Camera * list event.

Definition ret {A} (a : A) : M A := fun _ self => (Return a, self, []).

Definition raise {A} (e : exn) : M A := fun _ self => (Raise e, self, []).

Definition bind {A B} (m : M A) (k : A -> M B) : M B :=
  fun w self =>
    match m w self with
    | (Return a, self1, t1) =>
        match k a w self1 with
        | (r, self2, t2) => (r, self2, t1 ++ t2)
        end
    | (Raise e, self1, t1) => (Raise e, self1, t1)
    end.

Notation "'let*' x ':=' m 'in' k" := (bind m (fun x => k))
  (at level 10, x name, m at level 100, k at level 200).
Notation "m ';;' k" := (bind m (fun _ => k))
  (at level 100, k at level 200, right associativity).

Definition ask : M World := fun w self => (Return w, self, []).

Definition get_self : M Camera := fun _ self => (Return self, self, []).

Definition emit (e : event) : M unit := fun _ self => (Return tt, self, [e]).

Definition lift {A} (r : outcome A) : M A := fun _ self => (r, self, []).

Definition set_failed_retrieval_counter (n : Z) : M unit :=
  fun _ self => (Return tt, with_counter self n, [SetCounter n]).

Definition log (lvl : level) (msg : message) : M unit :=
  let* self := get_self in emit (Log lvl (entity_id self) msg).

(** [try: m / except PikIntercomException as error:]: the handler gets
    [str(error)], every other exception passes through. *)
Definition try_except_PikIntercomException {A} (m : M A) : M (string + A) :=
  fun w self =>
    match m w self with
    | (Return a, self1, t1) => (Return (inr a), self1, t1)
    | (Raise (PikIntercomException msg), self1, t1) => (Return (inl msg), self1, t1)
    | (Raise e, self1, t1) => (Raise e, self1, t1)
    end.

(** The awaited operations. *)
Definition async_get_image (url : string) (width height : option Z)
  : M (option bytes) :=
  emit (FfmpegGetImage url width height);;
  let* w := ask in lift (ffmpeg_get_image w url width height).

Definition async_get_snapshot : M bytes :=
  emit GetSnapshot;;
  let* w := ask in lift (get_snapshot w).

Definition async_update_property_intercoms (property : Z) : M unit :=
  emit (UpdatePropertyIntercoms property);;
  let* w := ask in lift (update_property_intercoms w property).

(** ** The entity *)

(** [d[key]] on a dictionary. *)
Definition subscript {V} (d : gmap string V) (key : string) : M V :=
  match d !! key with
  | Some v => ret v
  | None => raise (KeyError key)
  end.

Definition retrieval_error_threshold : M Z :=
  let* w := ask in
  let* self := get_self in
  let* entry := subscript (final_config w) (config_entry_id self) in
  let* configured := subscript entry CONF_RETRIEVAL_ERROR_THRESHOLD in
  ret (Z.max configured 5).

(** The [try] statement is written out by cases: its [else] clause is the
    [inr] branch, its handler the [inl] branch, and the statements after
    it, reached only from the handler when the threshold is met, close
    that branch. *)
Definition async_camera_image (width height : option Z) : M (option bytes) :=
  let* w := ask in
  let intercom_device := intercom_device w in
  if negb (truthy (photo_url intercom_device)) then
    match stream_url intercom_device with
    | Some ((String _ _) as stream_url) =>
        log DEBUG FetchingSnapshotFromVideoFeed;;
        let* snapshot_image := async_get_image stream_url width height in
        match snapshot_image with
        | None =>
            log WARNING VideoSourceDidNotProvideAnyImage;;
            ret None
        | Some image =>
            log DEBUG RetrievedSnapshotFromVideoFeed;;
            ret (Some image)
        end
    | _ =>
        log WARNING NoVideoSourceAvailable;;
        ret None
    end
  else
    let* attempt := try_except_PikIntercomException async_get_snapshot in
    match attempt with
    | inl error =>
        let* self := get_self in
        set_failed_retrieval_counter (failed_retrieval_counter self + 1);;
        let* self := get_self in
        let failed_retrieval_counter := failed_retrieval_counter self in
        let* threshold := retrieval_error_threshold in
        if failed_retrieval_counter <? threshold then
          log ERROR (RetrievalError failed_retrieval_counter threshold error);;
          ret None
        else
          set_failed_retrieval_counter 0;;
          log ERROR (RetrievalErrorThresholdReached threshold);;
          async_update_property_intercoms (property_id intercom_device);;
          ret None
    | inr snapshot_image =>
        set_failed_retrieval_counter 0;;
        ret (Some snapshot_image)
    end.

(** ** Reading a run *)

Definition result_of {A} (r : outcome A * Camera * list event) : outcome A :=
  fst (fst r).

Definition self_after {A} (r : outcome A * Camera * list event) : Camera :=
  snd (fst r).

Definition events_of {A} (r : outcome A * Camera * list event) : list event :=
  snd r.

(** The host polls the entity again and again; between two polls the world
    may have changed, the entity keeps its attributes.  An exception that
    leaves one poll does not end the entity's life. *)
Record Call := {
  world : World;
  width : option Z;
  height : option Z
}.

Definition Step : Type := Camera * Call * (outcome (option bytes) * Camera * list event).

Fixpoint poll (self : Camera) (calls : list Call) : list Step :=
  match calls with
  | [] => []
  | call :: calls' =>
      let r := async_camera_image (width call) (height call) (world call) self in
      (self, call, r) :: poll (snd (fst r)) calls'
  end.

(** The entity as the last poll leaves it. *)
Fixpoint final (self : Camera) (steps : list Step) : Camera :=
  match steps with
  | [] => self
  | (_, _, r) :: steps' => final (self_after r) steps'
  end.

(** *** State attributes *)

(** [md.keys()]: the view of a multidict runs over the items, so a key
    stored several times is yielded several times. *)
Definition keys (md : MultiDict) : list string := map fst md.

(** [md.getall(key)] without a default: the values stored under the key,
    in order, or [KeyError] when there is none. *)
Definition getall (md : MultiDict) (key : string) : outcome (list string) :=
  match map snd (List.filter (fun item => String.eqb (fst item) key) md) with
  | [] => Raise (KeyError key)
  | values => Return values
  end.

Record StreamUrl := {
  quality : string;
  source : string
}.

Record StateAttributes := {
  attr_photo_url : option string;
  attr_stream_url : option string;
  all_stream_urls : list StreamUrl;
  attr_face_detection : bool
}.

(** The nested comprehension
    [[{...} for key in ks for value in intercom_streams.getall(key)]]. *)
Fixpoint stream_url_entries (intercom_streams : MultiDict) (ks : list string)
  : outcome (list StreamUrl) :=
  match ks with
  | [] => Return []
  | key :: ks' =>
      match getall intercom_streams key with
      | Raise e => Raise e
      | Return values =>
          match stream_url_entries intercom_streams ks' with
          | Raise e => Raise e
          | Return rest =>
              Return (map (fun value => {| quality := key; source := value |}) values
                        ++ rest)
          end
      end
  end.

Definition device_state_attributes (intercom_device : Device)
  : outcome StateAttributes :=
  let intercom_streams := video intercom_device in
  match
    match intercom_streams with
    | Some ((_ :: _) as streams) => stream_url_entries streams (keys streams)
    | _ => Return []
    end
  with
  | Raise e => Raise e
  | Return entries =>
      Return {| attr_photo_url := photo_url intercom_device;
                attr_stream_url := stream_url intercom_device;
                all_stream_urls := entries;
                attr_face_detection := face_detection intercom_device |}
  end.

(** ** Reading the events *)

(** The calls of the API object's refresh operation, with their argument. *)
Definition refresh_calls (events : list event) : list Z :=
  flat_map (fun e => match e with UpdatePropertyIntercoms p => [p] | _ => [] end)
    events.

(** The calls that reach the API object: snapshot fetches and refreshes. *)
Definition is_api_call (e : event) : bool :=
  match e with
  | GetSnapshot | UpdatePropertyIntercoms _ => true
  | _ => false
  end.

(** The calls of the media helper. *)
Definition helper_calls (events : list event) : list event :=
  List.filter (fun e => match e with FfmpegGetImage _ _ _ => true | _ => false end)
    events.

(** The values assigned to the failure counter, in order. *)
Definition counter_writes (events : list event) : list Z :=
  flat_map (fun e => match e with SetCounter n => [n] | _ => [] end) events.

(** The value stored for the entity's entry in the final configuration,
    when there is one. *)
Definition configured_threshold (w : World) (self : Camera) : option Z :=
  match final_config w !! config_entry_id self with
  | Some entry => entry !! CONF_RETRIEVAL_ERROR_THRESHOLD
  | None => None
  end.

(** What one poll does to the snapshot endpoint, told from what the poll
    finds. *)
Inductive fetch_kind :=
| NotFetched        (* no photo URL: the stream fallback *)
| FetchSucceeded
| FetchFailed       (* PikIntercomException, threshold not reached *)
| ThresholdTripped  (* PikIntercomException, threshold reached *)
| FetchCrashed.     (* any other exception *)

Definition classify (self : Camera) (w : World) : fetch_kind :=
  if negb (truthy (photo_url (intercom_device w))) then NotFetched
  else
    match get_snapshot w with
    | Return _ => FetchSucceeded
    | Raise (PikIntercomException _) =>
        match configured_threshold w self with
        | Some v =>
            if failed_retrieval_counter self + 1 <? Z.max v 5
            then FetchFailed else ThresholdTripped
        | None => FetchFailed
        end
    | Raise _ => FetchCrashed
    end.

(** The rule of the failure counter for one poll. *)
Definition counter_rule (kind : fetch_kind) (before after : Z) (writes : list Z)
  : Prop :=
  match kind with
  | FetchSucceeded => after = 0 /\ writes = [0]
  | ThresholdTripped => after = 0 /\ writes = [before + 1; 0]
  | FetchFailed => after = before + 1 /\ writes = [before + 1]
  | NotFetched | FetchCrashed => after = before /\ writes = []
  end.

(** Each step of a run starts from the entity the step before left. *)
Fixpoint chained (self : Camera) (steps : list Step) : Prop :=
  match steps with
  | [] => True
  | (before, _, r) :: steps' => before = self /\ chained (self_after r) steps'
  end.

(** *** The flattening the specification describes

    The multi-map read as quality -> [sources]: every quality once, in the
    order of its first item, each with its sources in order. *)
Fixpoint qualities (md : MultiDict) : list string :=
  match md with
  | [] => []
  | (key, _) :: md' =>
      key :: List.filter (fun k => negb (String.eqb k key)) (qualities md')
  end.

Definition stream_entry (key value : string) : StreamUrl :=
  {| quality := key; source := value |}.

Definition sources (md : MultiDict) (key : string) : list string :=
  map snd (List.filter (fun item => String.eqb (fst item) key) md).

Definition flatten_streams (md : MultiDict) : list StreamUrl :=
  flat_map
    (fun key => map (stream_entry key) (sources md key))
    (qualities md).

(** ** Sample devices and worlds *)

Module Examples.

Definition camera (n : Z) : Camera :=
  {| entity_id := "switch.42_camera";
     config_entry_id := "entry";
     failed_retrieval_counter := n |}.

Definition config (v : Z) : gmap string (gmap string Z) :=
  {[ "entry" := {[ CONF_RETRIEVAL_ERROR_THRESHOLD := v ]} ]}.

Definition jpeg : bytes := [Byte.xff; Byte.xd8; Byte.xff; Byte.xd9].

Definition frame : bytes := [Byte.x89; Byte.x50].

Definition door : Device :=
  {| property_id := 7;
     photo_url := Some "https://pik.example/photo.jpg";
     stream_url := Some "rtsp://pik.example/high";
     video := Some [("high", "rtsp://pik.example/high");
                    ("low", "rtsp://pik.example/low")];
     face_detection := true |}.

(** A device without a photo URL, with or without a stream. *)
Definition gate (stream : option string) : Device :=
  {| property_id := 7;
     photo_url := None;
     stream_url := stream;
     video := None;
     face_detection := false |}.

(** A quality with two sources. *)
Definition lobby : Device :=
  {| property_id := 7;
     photo_url := None;
     stream_url := Some "rtsp://pik.example/a";
     video := Some [("high", "rtsp://pik.example/a");
                    ("high", "rtsp://pik.example/b")];
     face_detection := false |}.

Definition make_world (v : Z) (device : Device) (snapshot : outcome bytes)
    (refresh : outcome unit) : World :=
  {| final_config := config v;
     intercom_device := device;
     ffmpeg_get_image := fun _ _ _ => Return (Some frame);
     get_snapshot := snapshot;
     update_property_intercoms := fun _ => refresh |}.

Definition healthy : World := make_world 3 door (Return jpeg) (Return tt).

Definition failing : World :=
  make_world 3 door (Raise (PikIntercomException "timeout")) (Return tt).

Definition failing_refresh_down : World :=
  make_world 3 door (Raise (PikIntercomException "timeout"))
    (Raise (PikIntercomException "unauthorized")).

Definition call (w : World) : Call :=
  {| world := w; width := None; height := None |}.

End Examples.

(** ** Identity, naming and registration *)

(** [str(n)] of a Python [int]: decimal digits, with a leading minus sign
    for a negative number. *)
Definition str (n : Z) : string := NilZero.string_of_int (Z.to_int n).

(** [a or b] on [Optional[str]] operands. *)
Definition py_or (a b : option string) : option string :=
  if truthy a then a else b.

Module IntercomDevice.

(** The device object with the identity fields the entity reads beside
    those of [Device]; [id] and [property_id] are the vendor's integer
    identifiers. *)
Record t := {
  id : Z;
  has_camera : bool;
  name : option string;
  human_name : option string;
  renamed_name : option string;
  details : Device
}.

End IntercomDevice.

(** The API object kept for a configuration entry: [devices] lists
    [api.devices.values()] in the order of the dictionary. *)
Record Api := {
  devices : list IntercomDevice.t
}.

(** Modelled from the spec: [const.py] is not part of the sources; the key
    of the integration in [hass.data]. *)
Definition DOMAIN : string := "pik_intercom".

(** The key under which the ffmpeg integration keeps its manager. *)
Definition DATA_FFMPEG : string := "ffmpeg".

(** The two entries of [hass.data] that the platform subscripts, each
    absent or present: [hass.data[DOMAIN]], by configuration entry id, and
    [hass.data[ffmpeg.DATA_FFMPEG]]. *)
Record Hass := {
  data_domain : option (gmap string Api);
  data_ffmpeg : option unit
}.

(** An entity with the device object it was created for. *)
Record Entity := {
  camera : Camera;
  _intercom_device : IntercomDevice.t
}.

(** [PikIntercomCamera.__init__]. *)
Definition PikIntercomCamera (hass : Hass) (config_entry_id : string)
    (intercom_device : IntercomDevice.t) : outcome Entity :=
  match data_ffmpeg hass with
  | None => Raise (KeyError DATA_FFMPEG)
  | Some _ =>
      Return
        {| camera :=
             {| entity_id :=
                  String.append "switch."
                    (String.append (str (IntercomDevice.id intercom_device))
                       "_camera");
                config_entry_id := config_entry_id;
                failed_retrieval_counter := 0 |};
           _intercom_device := intercom_device |}
  end.

Definition unique_id (self : Entity) : string :=
  let intercom_device := _intercom_device self in
  String.append "intercom_camera_"
    (String.append (str (property_id (IntercomDevice.details intercom_device)))
       (String.append "_" (str (IntercomDevice.id intercom_device)))).

Definition name (self : Entity) : option string :=
  let intercom_device := _intercom_device self in
  py_or (IntercomDevice.renamed_name intercom_device)
    (py_or (IntercomDevice.human_name intercom_device)
       (IntercomDevice.name intercom_device)).

(** What [async_setup_entry] hands to [async_add_entities], and what it
    returns. *)
Record Setup := {
  added : list Entity;
  update_before_add : bool;
  returned : bool
}.

(** The comprehension over [api.devices.values()]. *)
Fixpoint create_entities (hass : Hass) (config_entry_id : string)
    (intercom_devices : list IntercomDevice.t) : outcome (list Entity) :=
  match intercom_devices with
  | [] => Return []
  | intercom_device :: rest =>
      if IntercomDevice.has_camera intercom_device then
        match PikIntercomCamera hass config_entry_id intercom_device with
        | Raise e => Raise e
        | Return entity =>
            match create_entities hass config_entry_id rest with
            | Raise e => Raise e
            | Return entities => Return (entity :: entities)
            end
        end
      else create_entities hass config_entry_id rest
  end.

Definition async_setup_entry (hass : Hass) (config_entry_id : string)
  : outcome Setup * list (level * string) :=
  let logged :=
    [(DEBUG, String.append "Setting up 'camera' platform for entry "
               config_entry_id)] in
  match data_domain hass with
  | None => (Raise (KeyError DOMAIN), logged)
  | Some entries =>
      match entries !! config_entry_id with
      | None => (Raise (KeyError config_entry_id), logged)
      | Some api =>
          match create_entities hass config_entry_id (devices api) with
          | Raise e => (Raise e, logged)
          | Return entities =>
              (Return {| added := entities;
                         update_before_add := false;
                         returned := true |}, logged)
          end
      end
  end.

(** A string without the separator ["_"]. *)
Fixpoint no_underscore (s : string) : bool :=
  match s with
  | EmptyString => true
  | String c s' => negb (Ascii.eqb c "_") && no_underscore s'
  end.

(** All refresh calls of a run of polls, in order. *)
Definition all_refresh_calls (steps : list Step) : list Z :=
  flat_map (fun step : Step => refresh_calls (events_of (snd step))) steps.

(** The counter after each poll of a run. *)
Definition counters_after (steps : list Step) : list Z :=
  map (fun step : Step => failed_retrieval_counter (self_after (snd step))) steps.

Module Fleet.

Definition intercom (n : Z) (camera : bool) (renamed : option string)
  : IntercomDevice.t :=
  {| IntercomDevice.id := n;
     IntercomDevice.has_camera := camera;
     IntercomDevice.name := Some "Intercom";
     IntercomDevice.human_name := Some "Front door";
     IntercomDevice.renamed_name := renamed;
     IntercomDevice.details := Examples.door |}.

Definition api : Api :=
  {| devices := [intercom 41 true None; intercom 42 false None;
                 intercom 43 true (Some "Garage")] |}.

Definition hass (ffmpeg : option unit) : Hass :=
  {| data_domain := Some {[ "entry" := api ]};
     data_ffmpeg := ffmpeg |}.

Definition registered : list Entity :=
  match fst (async_setup_entry (hass (Some tt)) "entry") with
  | Return setup => added setup
  | Raise _ => []
  end.

Definition unconfigured : World :=
  {| final_config := ∅;
     intercom_device := Examples.door;
     ffmpeg_get_image := fun _ _ _ => Return None;
     get_snapshot := Raise (PikIntercomException "timeout");
     update_property_intercoms := fun _ => Return tt |}.

Definition crashing : World :=
  Examples.make_world 3 Examples.door (Raise (OtherException "cancelled"))
    (Return tt).

End Fleet.

(** ** Equations of a run *)

Lemma configured_threshold_with_counter w self n :
  configured_threshold w (with_counter self n) = configured_threshold w self.
Proof. reflexivity. Qed.

Lemma retrieval_error_threshold_run w self :
  retrieval_error_threshold w self =
  match configured_threshold w self with
  | Some v => (Return (Z.max v 5), self, [])
  | None =>
      (Raise (KeyError
                match final_config w !! config_entry_id self with
                | Some _ => CONF_RETRIEVAL_ERROR_THRESHOLD
                | None => config_entry_id self
                end), self, [])
  end.
Proof.
  unfold retrieval_error_threshold, configured_threshold, bind, ask, get_self,
    subscript.
  destruct (final_config w !! config_entry_id self) as [entry|]; cbn; [|reflexivity].
  destruct (entry !! CONF_RETRIEVAL_ERROR_THRESHOLD); reflexivity.
Qed.

Ltac run_monad :=
  unfold async_camera_image, try_except_PikIntercomException, async_get_snapshot,
    async_get_image, async_update_property_intercoms, log,
    set_failed_retrieval_counter, bind, ask, get_self, emit, lift, ret, raise;
  cbn.

(** Without a photo URL the entity never touches the snapshot endpoint or
    its own counter. *)
Lemma fallback_run width height w self :
  truthy (photo_url (intercom_device w)) = false ->
  async_camera_image width height w self =
  match stream_url (intercom_device w) with
  | Some ((String _ _) as url) =>
      match ffmpeg_get_image w url width height with
      | Return (Some image) =>
          (Return (Some image), self,
           [Log DEBUG (entity_id self) FetchingSnapshotFromVideoFeed;
            FfmpegGetImage url width height;
            Log DEBUG (entity_id self) RetrievedSnapshotFromVideoFeed])
      | Return None =>
          (Return None, self,
           [Log DEBUG (entity_id self) FetchingSnapshotFromVideoFeed;
            FfmpegGetImage url width height;
            Log WARNING (entity_id self) VideoSourceDidNotProvideAnyImage])
      | Raise e =>
          (Raise e, self,
           [Log DEBUG (entity_id self) FetchingSnapshotFromVideoFeed;
            FfmpegGetImage url width height])
      end
  | _ => (Return None, self, [Log WARNING (entity_id self) NoVideoSourceAvailable])
  end.
Proof.
  intros Hphoto. run_monad. rewrite Hphoto. cbn.
  destruct (stream_url (intercom_device w)) as [[|a url]|]; cbn; try reflexivity.
  destruct (ffmpeg_get_image w (String a url) width height) as [[image|]|e];
    reflexivity.
Qed.

Lemma snapshot_success_run width height w self image :
  truthy (photo_url (intercom_device w)) = true ->
  get_snapshot w = Return image ->
  async_camera_image width height w self =
  (Return (Some image), with_counter self 0, [GetSnapshot; SetCounter 0]).
Proof.
  intros Hphoto Hsnap. run_monad. rewrite Hphoto. cbn. rewrite Hsnap. reflexivity.
Qed.

Lemma snapshot_crash_run width height w self e :
  truthy (photo_url (intercom_device w)) = true ->
  get_snapshot w = Raise e ->
  (forall msg, e <> PikIntercomException msg) ->
  async_camera_image width height w self = (Raise e, self, [GetSnapshot]).
Proof.
  intros Hphoto Hsnap Hother. run_monad. rewrite Hphoto. cbn. rewrite Hsnap.
  destruct e as [msg| |]; [destruct (Hother msg); reflexivity | reflexivity..].
Qed.

(** A failed fetch: the counter goes up by one before the threshold is
    read, so it stays up when the configuration lookup raises. *)
Lemma snapshot_failure_run width height w self msg :
  truthy (photo_url (intercom_device w)) = true ->
  get_snapshot w = Raise (PikIntercomException msg) ->
  async_camera_image width height w self =
  let counter := failed_retrieval_counter self + 1 in
  match retrieval_error_threshold w (with_counter self counter) with
  | (Return threshold, _, _) =>
      if counter <? threshold then
        (Return None, with_counter self counter,
         [GetSnapshot; SetCounter counter;
          Log ERROR (entity_id self) (RetrievalError counter threshold msg)])
      else
        (match update_property_intercoms w (property_id (intercom_device w)) with
         | Return _ => Return None
         | Raise e => Raise e
         end,
         with_counter self 0,
         [GetSnapshot; SetCounter counter; SetCounter 0;
          Log ERROR (entity_id self) (RetrievalErrorThresholdReached threshold);
          UpdatePropertyIntercoms (property_id (intercom_device w))])
  | (Raise e, _, _) =>
      (Raise e, with_counter self counter, [GetSnapshot; SetCounter counter])
  end.
Proof.
  intros Hphoto Hsnap. cbv zeta.
  rewrite retrieval_error_threshold_run, configured_threshold_with_counter.
  unfold async_camera_image, bind at 1. unfold ask at 1. cbv iota beta.
  rewrite Hphoto. cbn [negb].
  unfold bind at 1.
  replace (try_except_PikIntercomException async_get_snapshot w self)
    with (@Return (string + bytes) (inl msg), self, [GetSnapshot]).
  2:{ unfold try_except_PikIntercomException, async_get_snapshot, bind, emit, ask,
        lift. cbn. rewrite Hsnap. reflexivity. }
  unfold bind at 1. unfold get_self at 1. cbv iota beta.
  unfold bind at 1. unfold set_failed_retrieval_counter at 1. cbv iota beta.
  unfold bind at 1. unfold get_self at 1. cbv iota beta.
  unfold bind at 1.
  rewrite retrieval_error_threshold_run, configured_threshold_with_counter.
  destruct (configured_threshold w self) as [v|]; [|reflexivity].
  cbn [failed_retrieval_counter with_counter].
  destruct (failed_retrieval_counter self + 1 <? Z.max v 5); run_monad.
  - reflexivity.
  - destruct (update_property_intercoms w (property_id (intercom_device w)));
      reflexivity.
Qed.

Lemma soft_failure_run width height w self msg v :
  truthy (photo_url (intercom_device w)) = true ->
  get_snapshot w = Raise (PikIntercomException msg) ->
  configured_threshold w self = Some v ->
  failed_retrieval_counter self + 1 < Z.max v 5 ->
  async_camera_image width height w self =
  (Return None, with_counter self (failed_retrieval_counter self + 1),
   [GetSnapshot; SetCounter (failed_retrieval_counter self + 1);
    Log ERROR (entity_id self)
      (RetrievalError (failed_retrieval_counter self + 1) (Z.max v 5) msg)]).
Proof.
  intros Hphoto Hsnap Hconf Hlt.
  rewrite (snapshot_failure_run _ _ _ _ msg Hphoto Hsnap). cbv zeta.
  rewrite retrieval_error_threshold_run, configured_threshold_with_counter, Hconf.
  apply Z.ltb_lt in Hlt. rewrite Hlt. reflexivity.
Qed.

Lemma threshold_trip_run width height w self msg v :
  truthy (photo_url (intercom_device w)) = true ->
  get_snapshot w = Raise (PikIntercomException msg) ->
  configured_threshold w self = Some v ->
  Z.max v 5 <= failed_retrieval_counter self + 1 ->
  async_camera_image width height w self =
  (match update_property_intercoms w (property_id (intercom_device w)) with
   | Return _ => Return None
   | Raise e => Raise e
   end,
   with_counter self 0,
   [GetSnapshot; SetCounter (failed_retrieval_counter self + 1); SetCounter 0;
    Log ERROR (entity_id self) (RetrievalErrorThresholdReached (Z.max v 5));
    UpdatePropertyIntercoms (property_id (intercom_device w))]).
Proof.
  intros Hphoto Hsnap Hconf Hge.
  rewrite (snapshot_failure_run _ _ _ _ msg Hphoto Hsnap). cbv zeta.
  rewrite retrieval_error_threshold_run, configured_threshold_with_counter, Hconf.
  apply Z.ltb_ge in Hge. rewrite Hge. reflexivity.
Qed.

Lemma unconfigured_failure_run width height w self msg :
  truthy (photo_url (intercom_device w)) = true ->
  get_snapshot w = Raise (PikIntercomException msg) ->
  configured_threshold w self = None ->
  self_after (async_camera_image width height w self) =
    with_counter self (failed_retrieval_counter self + 1) /\
  events_of (async_camera_image width height w self) =
    [GetSnapshot; SetCounter (failed_retrieval_counter self + 1)].
Proof.
  intros Hphoto Hsnap Hconf.
  rewrite (snapshot_failure_run _ _ _ _ msg Hphoto Hsnap). cbv zeta.
  rewrite retrieval_error_threshold_run, configured_threshold_with_counter, Hconf.
  split; reflexivity.
Qed.

(** ** The snapshot endpoint: threshold, soft failures, success *)

(** C1. With a photo URL, the failed fetch that brings the counter to the
    threshold resets the counter to 0 and calls the API object's refresh
    once, for the device's property; the fetch returns none when that
    refresh returns. *)
Theorem threshold_failure_resets_and_refreshes_once width height w self msg v :
  truthy (photo_url (intercom_device w)) = true ->
  get_snapshot w = Raise (PikIntercomException msg) ->
  configured_threshold w self = Some v ->
  failed_retrieval_counter self + 1 = Z.max v 5 ->
  let run := async_camera_image width height w self in
  failed_retrieval_counter (self_after run) = 0 /\
  refresh_calls (events_of run) = [property_id (intercom_device w)] /\
  (update_property_intercoms w (property_id (intercom_device w)) = Return tt ->
   result_of run = Return None).
Proof.
  intros Hphoto Hsnap Hconf Heq run. subst run.
  rewrite (threshold_trip_run _ _ _ _ msg v Hphoto Hsnap Hconf) by lia.
  repeat split. cbn. intros ->. reflexivity.
Qed.

Lemma threshold_failure_resets_and_refreshes_once_witness :
  let run := async_camera_image None None Examples.failing (Examples.camera 4) in
  failed_retrieval_counter (self_after run) = 0 /\
  refresh_calls (events_of run) = [7] /\
  (update_property_intercoms Examples.failing 7 = Return tt ->
   result_of run = Return None).
Proof.
  apply (threshold_failure_resets_and_refreshes_once None None Examples.failing
           (Examples.camera 4) "timeout" 3); vm_compute; reflexivity.
Defined.

(** Soft failures, one poll after the other, from any counter. *)
Lemma soft_failures_poll calls : forall self,
  Forall (fun call =>
            truthy (photo_url (intercom_device (world call))) = true /\
            (exists msg, get_snapshot (world call) = Raise (PikIntercomException msg)) /\
            exists v, configured_threshold (world call) self = Some v /\
                      failed_retrieval_counter self + Z.of_nat (length calls)
                        < Z.max v 5)
    calls ->
  Forall (fun step : Step => result_of (snd step) = Return None) (poll self calls) /\
  map (fun step : Step => failed_retrieval_counter (self_after (snd step)))
    (poll self calls)
  = map (fun i => failed_retrieval_counter self + Z.of_nat i)
      (seq 1 (length calls)) /\
  failed_retrieval_counter (final self (poll self calls))
  = failed_retrieval_counter self + Z.of_nat (length calls).
Proof.
  induction calls as [|call calls IH]; intros self Hall.
  - cbn. repeat split; [constructor | lia].
  - inversion Hall as [|? ? (Hphoto & [msg Hsnap] & v & Hconf & Hlt) Hrest]; subst.
    cbn [poll length] in *.
    rewrite (soft_failure_run _ _ _ _ msg v Hphoto Hsnap Hconf) by lia.
    cbn [fst snd final self_after].
    destruct (IH (with_counter self (failed_retrieval_counter self + 1)))
      as (Hnone & Hcounters & Hfinal).
    { eapply Forall_impl; [exact Hrest|].
      intros c (Hp & Hs & v' & Hc & Hl). repeat split; try assumption.
      exists v'. rewrite configured_threshold_with_counter. split; [exact Hc|].
      cbn [failed_retrieval_counter with_counter]. lia. }
    cbn [failed_retrieval_counter with_counter] in *.
    repeat split.
    + constructor; [reflexivity | exact Hnone].
    + cbn [map seq]. f_equal.
      rewrite Hcounters, <- (seq_shift (length calls) 1), map_map.
      apply map_ext. intros i. lia.
    + rewrite Hfinal. lia.
Qed.

(** C2. With a photo URL, N failed fetches in a row, N below the threshold,
    are all absorbed: each poll returns none, raising nothing, and the
    counter stands at 1, 2, ..., N after them. *)
Theorem failures_below_threshold_are_absorbed self calls :
  failed_retrieval_counter self = 0 ->
  Forall (fun call =>
            truthy (photo_url (intercom_device (world call))) = true /\
            (exists msg, get_snapshot (world call) = Raise (PikIntercomException msg)) /\
            exists v, configured_threshold (world call) self = Some v /\
                      Z.of_nat (length calls) < Z.max v 5)
    calls ->
  Forall (fun step : Step => result_of (snd step) = Return None) (poll self calls) /\
  map (fun step : Step => failed_retrieval_counter (self_after (snd step)))
    (poll self calls)
  = map Z.of_nat (seq 1 (length calls)) /\
  failed_retrieval_counter (final self (poll self calls)) = Z.of_nat (length calls).
Proof.
  intros Hzero Hall.
  destruct (soft_failures_poll calls self) as (Hnone & Hcounters & Hfinal).
  - eapply Forall_impl; [exact Hall|].
    intros c (Hp & Hs & v & Hc & Hl). rewrite Hzero. eauto 10.
  - rewrite Hzero in Hcounters, Hfinal.
    split; [exact Hnone | split; [|lia]].
    rewrite Hcounters. apply map_ext. intros i. lia.
Qed.

Lemma failures_below_threshold_are_absorbed_witness :
  let calls := repeat (Examples.call Examples.failing) 4 in
  let steps := poll (Examples.camera 0) calls in
  Forall (fun step : Step => result_of (snd step) = Return None) steps /\
  map (fun step : Step => failed_retrieval_counter (self_after (snd step))) steps
  = [1; 2; 3; 4] /\
  failed_retrieval_counter (final (Examples.camera 0) steps) = 4.
Proof.
  apply (failures_below_threshold_are_absorbed (Examples.camera 0)
           (repeat (Examples.call Examples.failing) 4)).
  - reflexivity.
  - cbn [repeat].
    repeat (apply List.Forall_cons;
            [split; [reflexivity|];
             split; [exists "timeout"; reflexivity|];
             exists 3; split; vm_compute; reflexivity|]).
    apply List.Forall_nil.
Defined.

(** C3. With a photo URL, a fetch that succeeds returns the bytes of the
    device's snapshot operation and leaves the counter at 0, whatever the
    counter was. *)
Theorem success_resets_counter_and_returns_bytes width height w self image :
  truthy (photo_url (intercom_device w)) = true ->
  get_snapshot w = Return image ->
  let run := async_camera_image width height w self in
  result_of run = Return (Some image) /\
  failed_retrieval_counter (self_after run) = 0 /\
  events_of run = [GetSnapshot; SetCounter 0].
Proof.
  intros Hphoto Hsnap run. subst run.
  rewrite (snapshot_success_run _ _ _ _ image Hphoto Hsnap).
  repeat split.
Qed.

Lemma success_resets_counter_and_returns_bytes_witness :
  let run := async_camera_image None None Examples.healthy (Examples.camera 4) in
  result_of run = Return (Some Examples.jpeg) /\
  failed_retrieval_counter (self_after run) = 0 /\
  events_of run = [GetSnapshot; SetCounter 0].
Proof.
  apply (success_resets_counter_and_returns_bytes None None Examples.healthy
           (Examples.camera 4) Examples.jpeg); reflexivity.
Defined.

(** ** The stream fallback *)

(** C4. Without a photo URL and without a stream URL the fetch returns none
    and logs one warning; nothing reaches the API object or the media
    helper, and the entity is left as it was. *)
Theorem no_source_returns_none_with_warning width height w self :
  truthy (photo_url (intercom_device w)) = false ->
  truthy (stream_url (intercom_device w)) = false ->
  let run := async_camera_image width height w self in
  result_of run = Return None /\
  events_of run = [Log WARNING (entity_id self) NoVideoSourceAvailable] /\
  List.filter is_api_call (events_of run) = [] /\
  helper_calls (events_of run) = [] /\
  self_after run = self.
Proof.
  intros Hphoto Hstream run. subst run.
  rewrite (fallback_run _ _ _ _ Hphoto).
  destruct (stream_url (intercom_device w)) as [[|a url]|];
    [| discriminate Hstream |]; repeat split.
Qed.

Lemma no_source_returns_none_with_warning_witness :
  let w := Examples.make_world 3 (Examples.gate None) (Return Examples.jpeg)
             (Return tt) in
  let run := async_camera_image (Some 640) (Some 480) w (Examples.camera 2) in
  result_of run = Return None /\
  events_of run = [Log WARNING "switch.42_camera" NoVideoSourceAvailable] /\
  List.filter is_api_call (events_of run) = [] /\
  helper_calls (events_of run) = [] /\
  self_after run = Examples.camera 2.
Proof.
  apply (no_source_returns_none_with_warning (Some 640) (Some 480)
           (Examples.make_world 3 (Examples.gate None) (Return Examples.jpeg)
              (Return tt))
           (Examples.camera 2)); reflexivity.
Defined.

(** C5. Without a photo URL but with a stream URL the fetch asks the media
    helper once, for that URL at the width and height it was given, and
    hands back what the helper answers: its bytes, none, or its
    exception.  The API object is not called. *)
Theorem stream_fallback_delegates_to_helper width height w self url :
  truthy (photo_url (intercom_device w)) = false ->
  stream_url (intercom_device w) = Some url ->
  url <> "" ->
  let run := async_camera_image width height w self in
  result_of run = ffmpeg_get_image w url width height /\
  helper_calls (events_of run) = [FfmpegGetImage url width height] /\
  List.filter is_api_call (events_of run) = [] /\
  self_after run = self.
Proof.
  intros Hphoto Hstream Hurl run. subst run.
  rewrite (fallback_run _ _ _ _ Hphoto), Hstream.
  destruct url as [|a url]; [contradiction Hurl; reflexivity|].
  destruct (ffmpeg_get_image w (String a url) width height) as [[image|]|e];
    repeat split.
Qed.

Lemma stream_fallback_delegates_to_helper_witness :
  let w := Examples.make_world 3 (Examples.gate (Some "rtsp://pik.example/high"))
             (Return Examples.jpeg) (Return tt) in
  let run := async_camera_image (Some 640) None w (Examples.camera 2) in
  result_of run = Return (Some Examples.frame) /\
  helper_calls (events_of run)
  = [FfmpegGetImage "rtsp://pik.example/high" (Some 640) None] /\
  List.filter is_api_call (events_of run) = [] /\
  self_after run = Examples.camera 2.
Proof.
  apply (stream_fallback_delegates_to_helper (Some 640) None
           (Examples.make_world 3 (Examples.gate (Some "rtsp://pik.example/high"))
              (Return Examples.jpeg) (Return tt))
           (Examples.camera 2) "rtsp://pik.example/high");
    [reflexivity | reflexivity | discriminate].
Defined.

(** ** The threshold *)

(** C7. The threshold the entity works with is the larger of the configured
    value and 5, so it is never below 5. *)
Theorem retrieval_error_threshold_is_floored_at_5 w self v :
  configured_threshold w self = Some v ->
  retrieval_error_threshold w self = (Return (Z.max v 5), self, []) /\
  5 <= Z.max v 5.
Proof.
  intros Hconf. rewrite retrieval_error_threshold_run, Hconf.
  split; [reflexivity | lia].
Qed.

Lemma retrieval_error_threshold_is_floored_at_5_witness :
  retrieval_error_threshold Examples.failing (Examples.camera 0)
  = (Return (Z.max 3 5), Examples.camera 0, []) /\
  5 <= Z.max 3 5.
Proof.
  apply (retrieval_error_threshold_is_floored_at_5 Examples.failing
           (Examples.camera 0) 3).
  vm_compute. reflexivity.
Defined.

(** ** The refresh and its failure *)

(** C8. When the refresh that a threshold trip starts raises, the fetch
    does not catch it: the same exception leaves [async_camera_image]. *)
Theorem refresh_failure_propagates width height w self msg v e :
  truthy (photo_url (intercom_device w)) = true ->
  get_snapshot w = Raise (PikIntercomException msg) ->
  configured_threshold w self = Some v ->
  Z.max v 5 <= failed_retrieval_counter self + 1 ->
  update_property_intercoms w (property_id (intercom_device w)) = Raise e ->
  result_of (async_camera_image width height w self) = Raise e.
Proof.
  intros Hphoto Hsnap Hconf Hge Hrefresh.
  rewrite (threshold_trip_run _ _ _ _ msg v Hphoto Hsnap Hconf Hge).
  unfold result_of. cbn. rewrite Hrefresh. reflexivity.
Qed.

Lemma refresh_failure_propagates_witness :
  result_of (async_camera_image None None Examples.failing_refresh_down
               (Examples.camera 4))
  = Raise (PikIntercomException "unauthorized").
Proof.
  apply (refresh_failure_propagates None None Examples.failing_refresh_down
           (Examples.camera 4) "timeout" 3 (PikIntercomException "unauthorized"));
    vm_compute; first [reflexivity | discriminate].
Defined.

(** C10. On a threshold trip the counter is written back to 0 before the
    refresh is called, so when the refresh raises the exception leaves the
    fetch with the counter at 0, and the next failed fetch counts 1. *)
Theorem counter_is_reset_before_refresh width height w self msg v e :
  truthy (photo_url (intercom_device w)) = true ->
  get_snapshot w = Raise (PikIntercomException msg) ->
  configured_threshold w self = Some v ->
  Z.max v 5 <= failed_retrieval_counter self + 1 ->
  update_property_intercoms w (property_id (intercom_device w)) = Raise e ->
  let run := async_camera_image width height w self in
  result_of run = Raise e /\
  failed_retrieval_counter (self_after run) = 0 /\
  events_of run
  = [GetSnapshot; SetCounter (failed_retrieval_counter self + 1); SetCounter 0;
     Log ERROR (entity_id self) (RetrievalErrorThresholdReached (Z.max v 5));
     UpdatePropertyIntercoms (property_id (intercom_device w))] /\
  (forall width' height' w' msg' v',
      truthy (photo_url (intercom_device w')) = true ->
      get_snapshot w' = Raise (PikIntercomException msg') ->
      configured_threshold w' self = Some v' ->
      failed_retrieval_counter
        (self_after (async_camera_image width' height' w' (self_after run))) = 1).
Proof.
  intros Hphoto Hsnap Hconf Hge Hrefresh run. subst run.
  rewrite (threshold_trip_run _ _ _ _ msg v Hphoto Hsnap Hconf Hge), Hrefresh.
  repeat split.
  intros width' height' w' msg' v' Hphoto' Hsnap' Hconf'.
  cbn [self_after fst snd].
  rewrite (soft_failure_run _ _ _ _ msg' v' Hphoto' Hsnap').
  - reflexivity.
  - rewrite configured_threshold_with_counter. exact Hconf'.
  - cbn [failed_retrieval_counter with_counter]. lia.
Qed.

Lemma counter_is_reset_before_refresh_witness :
  let run := async_camera_image None None Examples.failing_refresh_down
               (Examples.camera 4) in
  result_of run = Raise (PikIntercomException "unauthorized") /\
  failed_retrieval_counter (self_after run) = 0 /\
  events_of run
  = [GetSnapshot; SetCounter 5; SetCounter 0;
     Log ERROR "switch.42_camera" (RetrievalErrorThresholdReached 5);
     UpdatePropertyIntercoms 7] /\
  (forall width' height' w' msg' v',
      truthy (photo_url (intercom_device w')) = true ->
      get_snapshot w' = Raise (PikIntercomException msg') ->
      configured_threshold w' (Examples.camera 4) = Some v' ->
      failed_retrieval_counter
        (self_after (async_camera_image width' height' w' (self_after run))) = 1).
Proof.
  apply (counter_is_reset_before_refresh None None Examples.failing_refresh_down
           (Examples.camera 4) "timeout" 3 (PikIntercomException "unauthorized"));
    vm_compute; first [reflexivity | discriminate].
Defined.

(** ** The failure counter over the entity's life *)

Lemma counter_rule_step width height w self :
  let run := async_camera_image width height w self in
  counter_rule (classify self w)
    (failed_retrieval_counter self)
    (failed_retrieval_counter (self_after run))
    (counter_writes (events_of run)).
Proof.
  cbv zeta. unfold classify.
  destruct (truthy (photo_url (intercom_device w))) eqn:Hphoto; cbn [negb].
  - destruct (get_snapshot w) as [image|e] eqn:Hsnap.
    + rewrite (snapshot_success_run _ _ _ _ image Hphoto Hsnap). split; reflexivity.
    + destruct e as [msg|key|other].
      * destruct (configured_threshold w self) as [v|] eqn:Hconf.
        -- destruct (failed_retrieval_counter self + 1 <? Z.max v 5) eqn:Hlt.
           ++ apply Z.ltb_lt in Hlt.
              rewrite (soft_failure_run _ _ _ _ msg v Hphoto Hsnap Hconf Hlt).
              split; reflexivity.
           ++ apply Z.ltb_ge in Hlt.
              rewrite (threshold_trip_run _ _ _ _ msg v Hphoto Hsnap Hconf Hlt).
              split; reflexivity.
        -- destruct (unconfigured_failure_run width height _ _ msg Hphoto Hsnap Hconf)
             as [-> ->].
           split; reflexivity.
      * rewrite (snapshot_crash_run _ _ _ _ (KeyError key) Hphoto Hsnap)
          by discriminate.
        split; reflexivity.
      * rewrite (snapshot_crash_run _ _ _ _ (OtherException other) Hphoto Hsnap)
          by discriminate.
        split; reflexivity.
  - rewrite (fallback_run _ _ _ _ Hphoto).
    destruct (stream_url (intercom_device w)) as [[|a url]|];
      try (split; reflexivity).
    destruct (ffmpeg_get_image w (String a url) width height) as [[image|]|e];
      split; reflexivity.
Qed.

Lemma counter_rule_monotone kind before after writes :
  counter_rule kind before after writes ->
  kind <> FetchSucceeded -> kind <> ThresholdTripped ->
  before <= after.
Proof.
  destruct kind; cbn; intros [Hafter _] Hs Ht; try lia; congruence.
Qed.

(** C9. Over any sequence of polls of one entity, a failed fetch adds
    exactly one to the counter, a successful fetch and a threshold trip put
    it at zero, and nothing else writes it: until one of those two the
    counter never goes down. *)
Theorem failure_counter_invariant calls : forall self,
  chained self (poll self calls) /\
  Forall (fun step : Step =>
            let '(before, call, run) := step in
            let kind := classify before (world call) in
            counter_rule kind
              (failed_retrieval_counter before)
              (failed_retrieval_counter (self_after run))
              (counter_writes (events_of run)) /\
            (kind <> FetchSucceeded -> kind <> ThresholdTripped ->
             failed_retrieval_counter before
               <= failed_retrieval_counter (self_after run)))
    (poll self calls).
Proof.
  induction calls as [|call calls IH]; intros self; cbn [poll chained].
  - split; [exact I | constructor].
  - destruct (IH (snd (fst (async_camera_image (width call) (height call)
                              (world call) self)))) as [Hchain Hall].
    split; [split; [reflexivity | exact Hchain]|].
    constructor; [|exact Hall].
    pose proof (counter_rule_step (width call) (height call) (world call) self)
      as Hrule.
    cbv zeta in Hrule |- *.
    split; [exact Hrule|]. apply (counter_rule_monotone _ _ _ _ Hrule).
Qed.

(** ** The [all_stream_urls] attribute *)

Lemma sources_nonempty md key :
  In key (keys md) -> sources md key <> [].
Proof.
  unfold sources, keys. induction md as [|[k v] md IH]; cbn; [tauto|].
  intros [->|Hin].
  - rewrite String.eqb_refl. discriminate.
  - destruct (String.eqb k key); [discriminate | auto].
Qed.

Lemma getall_present md key :
  In key (keys md) -> getall md key = Return (sources md key).
Proof.
  intros Hin. apply sources_nonempty in Hin. unfold getall.
  fold (sources md key). destruct (sources md key); [contradiction | reflexivity].
Qed.

(** The comprehension never raises: every key it asks for comes from
    [keys()].  It yields, key after key of [keys()], all the values stored
    under that key. *)
Lemma stream_url_entries_run md ks :
  incl ks (keys md) ->
  stream_url_entries md ks
  = Return (flat_map (fun key => map (stream_entry key) (sources md key)) ks).
Proof.
  induction ks as [|key ks IH]; intros Hincl; cbn; [reflexivity|].
  rewrite getall_present by (apply Hincl; left; reflexivity).
  rewrite IH by (intros k Hk; apply Hincl; right; exact Hk).
  reflexivity.
Qed.

Lemma sources_absent md key :
  ~ In key (keys md) -> sources md key = [].
Proof.
  unfold sources, keys. induction md as [|[k v] md IH]; cbn; [reflexivity|].
  intros Hnot. destruct (String.eqb_spec k key) as [->|Hne]; [tauto|].
  apply IH. tauto.
Qed.

Lemma sources_cons k v md key :
  sources ((k, v) :: md) key
  = if String.eqb k key then v :: sources md key else sources md key.
Proof. unfold sources. cbn. destruct (String.eqb k key); reflexivity. Qed.

Lemma flat_map_ext_in {A B} (f g : A -> list B) (l : list A) :
  (forall a, In a l -> f a = g a) -> flat_map f l = flat_map g l.
Proof.
  induction l as [|a l IH]; cbn; [reflexivity|].
  intros Hext. rewrite Hext by (left; reflexivity).
  rewrite IH by (intros b Hb; apply Hext; right; exact Hb). reflexivity.
Qed.

Lemma filter_other_keys (ks : list string) (k : string) :
  ~ In k ks -> List.filter (fun k' => negb (String.eqb k' k)) ks = ks.
Proof.
  induction ks as [|k' ks IH]; cbn; [reflexivity|].
  intros Hnot. destruct (String.eqb_spec k' k) as [->|Hne]; [tauto|].
  cbn. f_equal. apply IH. tauto.
Qed.

Lemma qualities_distinct md :
  List.NoDup (keys md) -> qualities md = keys md.
Proof.
  induction md as [|[k v] md IH]; cbn; [reflexivity|].
  intros Hnodup. apply NoDup_cons_iff in Hnodup as [Hnot Hnodup].
  rewrite IH by exact Hnodup. f_equal.
  apply filter_other_keys. exact Hnot.
Qed.

(** The attributes are always produced; [all_stream_urls] is empty for an
    absent or empty mapping. *)
Lemma device_state_attributes_run device :
  device_state_attributes device
  = Return {| attr_photo_url := photo_url device;
              attr_stream_url := stream_url device;
              all_stream_urls :=
                match video device with
                | Some md =>
                    flat_map (fun key => map (stream_entry key) (sources md key))
                      (keys md)
                | None => []
                end;
              attr_face_detection := face_detection device |}.
Proof.
  unfold device_state_attributes.
  destruct (video device) as [[|item md]|]; try reflexivity.
  rewrite stream_url_entries_run by (intros k Hk; exact Hk). reflexivity.
Qed.

(** Where no quality repeats, the comprehension is the flattening: one
    entry per item, in the order of the items. *)
Lemma stream_url_entries_distinct md :
  List.NoDup (keys md) ->
  stream_url_entries md (keys md) = Return (flatten_streams md) /\
  flatten_streams md = map (fun item => stream_entry (fst item) (snd item)) md.
Proof.
  intros Hnodup.
  rewrite stream_url_entries_run by (intros k Hk; exact Hk).
  unfold flatten_streams. rewrite (qualities_distinct md Hnodup).
  split; [reflexivity|].
  induction md as [|[k v] md IH]; [reflexivity|].
  change (keys ((k, v) :: md)) with (k :: keys md) in *.
  apply NoDup_cons_iff in Hnodup as [Hnot Hnodup].
  cbn [flat_map map fst snd].
  rewrite sources_cons, String.eqb_refl, (sources_absent md k Hnot).
  cbn [map app]. f_equal.
  rewrite <- (IH Hnodup). apply flat_map_ext_in.
  intros key Hkey. rewrite sources_cons.
  destruct (String.eqb_spec k key) as [->|Hne]; [contradiction | reflexivity].
Qed.

Lemma qualities_incl_keys md : incl (qualities md) (keys md).
Proof.
  induction md as [|[k v] md IH]; cbn; [intros a Ha; exact Ha|].
  intros a [<-|Ha]; [left; reflexivity|].
  right. apply IH. apply filter_In in Ha. tauto.
Qed.

(** Run over every quality once, the same comprehension is the
    flattening. *)
Lemma stream_url_entries_over_qualities md :
  stream_url_entries md (qualities md) = Return (flatten_streams md).
Proof. apply stream_url_entries_run, qualities_incl_keys. Qed.

(** C6. [all_stream_urls] is not always one entry per source: [keys()] of a
    multi-map yields a quality once for every item stored under it, and
    [getall] then lists all of that quality's sources each time.  A quality
    with two sources comes out as four entries. *)
Theorem all_stream_urls_repeats_shared_quality :
  device_state_attributes Examples.lobby
  = Return {| attr_photo_url := None;
              attr_stream_url := Some "rtsp://pik.example/a";
              all_stream_urls :=
                [stream_entry "high" "rtsp://pik.example/a";
                 stream_entry "high" "rtsp://pik.example/b";
                 stream_entry "high" "rtsp://pik.example/a";
                 stream_entry "high" "rtsp://pik.example/b"];
              attr_face_detection := false |} /\
  flatten_streams [("high", "rtsp://pik.example/a"); ("high", "rtsp://pik.example/b")]
  = [stream_entry "high" "rtsp://pik.example/a";
     stream_entry "high" "rtsp://pik.example/b"].
Proof. split; reflexivity. Qed.


(** ** Identifiers *)

Lemma str_injective a b : str a = str b -> a = b.
Proof.
  unfold str. intros Heq.
  apply DecimalZ.to_int_inj.
  assert (Hparse : forall n, NilZero.int_of_string (NilZero.string_of_int (Z.to_int n))
                             = Some (Z.to_int n)).
  { intros n. apply NilZero.isi; destruct n as [|p|p]; cbn; try discriminate;
      intros [= Hnil]; exact (DecimalPos.Unsigned.to_uint_nonnil p Hnil). }
  pose proof (Hparse a) as Ha. rewrite Heq, Hparse in Ha. congruence.
Qed.

Lemma digits_no_underscore d : no_underscore (NilEmpty.string_of_uint d) = true.
Proof. induction d; cbn; auto. Qed.

Lemma str_no_underscore n : no_underscore (str n) = true.
Proof.
  unfold str, NilZero.string_of_int, NilZero.string_of_uint.
  destruct (Z.to_int n) as [d|d]; destruct d; cbn;
    try reflexivity; apply digits_no_underscore.
Qed.

(** Cutting at the first ["_"] is unambiguous. *)
Lemma split_at_underscore s1 : forall s2 t1 t2,
  no_underscore s1 = true -> no_underscore s2 = true ->
  String.append s1 (String "_" t1) = String.append s2 (String "_" t2) ->
  s1 = s2 /\ t1 = t2.
Proof.
  induction s1 as [|c s1 IH]; intros [|c2 s2] t1 t2 H1 H2 Heq; cbn in *.
  - injection Heq as ->. split; reflexivity.
  - injection Heq as <- _. discriminate H2.
  - injection Heq as -> _. discriminate H1.
  - injection Heq as -> Heq.
    apply andb_prop in H1 as [_ H1]. apply andb_prop in H2 as [_ H2].
    destruct (IH s2 t1 t2 H1 H2 Heq) as [-> ->]. split; reflexivity.
Qed.

Lemma entity_id_injective hass entry1 entry2 d1 d2 e1 e2 :
  PikIntercomCamera hass entry1 d1 = Return e1 ->
  PikIntercomCamera hass entry2 d2 = Return e2 ->
  entity_id (camera e1) = entity_id (camera e2) ->
  IntercomDevice.id d1 = IntercomDevice.id d2.
Proof.
  unfold PikIntercomCamera. destruct (data_ffmpeg hass); [|discriminate].
  intros [= <-] [= <-]. cbn [camera entity_id]. intros Heq.
  apply str_injective.
  change "_camera" with (String "_" "camera") in Heq.
  cbn in Heq. injection Heq as Heq.
  apply (split_at_underscore _ _ "camera" "camera");
    [apply str_no_underscore | apply str_no_underscore | exact Heq].
Qed.

Lemma unique_id_fields (e1 e2 : Entity) :
  unique_id e1 = unique_id e2 ->
  property_id (IntercomDevice.details (_intercom_device e1))
  = property_id (IntercomDevice.details (_intercom_device e2)) /\
  IntercomDevice.id (_intercom_device e1) = IntercomDevice.id (_intercom_device e2).
Proof.
  unfold unique_id. intros Heq. cbn in Heq. injection Heq as Heq.
  apply split_at_underscore in Heq as [Hp Hi]; try apply str_no_underscore.
  split; apply str_injective; assumption.
Qed.

(** X1. Two entities have the same unique id exactly when their devices
    agree on both the property id and the device id. *)
Theorem unique_id_identifies_device (e1 e2 : Entity) :
  unique_id e1 = unique_id e2 <->
  property_id (IntercomDevice.details (_intercom_device e1))
  = property_id (IntercomDevice.details (_intercom_device e2)) /\
  IntercomDevice.id (_intercom_device e1) = IntercomDevice.id (_intercom_device e2).
Proof.
  split; [apply unique_id_fields|].
  unfold unique_id. intros [-> ->]. reflexivity.
Qed.

(** ** Registration *)

Lemma create_entities_run hass entry ds m :
  data_ffmpeg hass = Some m ->
  exists entities,
    create_entities hass entry ds = Return entities /\
    map _intercom_device entities = List.filter IntercomDevice.has_camera ds /\
    List.Forall (fun e => PikIntercomCamera hass entry (_intercom_device e) = Return e)
      entities.
Proof.
  intros Hffmpeg. induction ds as [|d ds (entities & Hrun & Hdevices & Hnew)].
  - exists []. repeat split. constructor.
  - cbn [create_entities List.filter].
    destruct (IntercomDevice.has_camera d).
    + unfold PikIntercomCamera at 1. rewrite Hffmpeg, Hrun.
      eexists. split; [reflexivity|]. cbn [map _intercom_device].
      split; [f_equal; exact Hdevices|].
      constructor; [|exact Hnew].
      unfold PikIntercomCamera. rewrite Hffmpeg. reflexivity.
    + exists entities. auto.
Qed.

Lemma NoDup_map_by_key {A K B} (key : A -> K) (g : A -> B) (l : list A) :
  List.NoDup (map key l) ->
  (forall x y, In x l -> In y l -> g x = g y -> key x = key y) ->
  List.NoDup (map g l).
Proof.
  induction l as [|a l IH]; cbn; intros Hnodup Hinj; [constructor|].
  apply NoDup_cons_iff in Hnodup as [Hnot Hnodup].
  constructor.
  - intros Hin. apply in_map_iff in Hin as (b & Hgb & Hb).
    apply Hnot. apply in_map_iff. exists b. split; [|exact Hb].
    apply Hinj; auto.
  - apply IH; [exact Hnodup|]. intros x y Hx Hy. apply Hinj; auto.
Qed.

(** X2. With its data in place, setup adds exactly one entity for every
    device that has a camera, in the order of the device list, without an
    update before adding, and returns true; each new entity belongs to the
    entry and starts with a failure counter of 0. *)
Theorem setup_adds_one_entity_per_camera hass entry entries api m :
  data_domain hass = Some entries ->
  entries !! entry = Some api ->
  data_ffmpeg hass = Some m ->
  exists entities,
    fst (async_setup_entry hass entry)
    = Return {| added := entities; update_before_add := false; returned := true |} /\
    map _intercom_device entities
    = List.filter IntercomDevice.has_camera (devices api) /\
    List.Forall (fun e => failed_retrieval_counter (camera e) = 0 /\
                          config_entry_id (camera e) = entry)
      entities.
Proof.
  intros Hdomain Hentry Hffmpeg.
  destruct (create_entities_run hass entry (devices api) m Hffmpeg)
    as (entities & Hrun & Hdevices & Hnew).
  exists entities. unfold async_setup_entry.
  rewrite Hdomain, Hentry, Hrun. repeat split; [exact Hdevices|].
  eapply List.Forall_impl; [|exact Hnew].
  intros e. unfold PikIntercomCamera. rewrite Hffmpeg.
  intros [= <-]. split; reflexivity.
Qed.

Lemma setup_adds_one_entity_per_camera_witness :
  exists entities,
    fst (async_setup_entry (Fleet.hass (Some tt)) "entry")
    = Return {| added := entities; update_before_add := false; returned := true |} /\
    map _intercom_device entities
    = List.filter IntercomDevice.has_camera (devices Fleet.api) /\
    List.Forall (fun e => failed_retrieval_counter (camera e) = 0 /\
                          config_entry_id (camera e) = "entry")
      entities.
Proof.
  apply (setup_adds_one_entity_per_camera (Fleet.hass (Some tt)) "entry"
           {[ "entry" := Fleet.api ]} Fleet.api tt);
    vm_compute; reflexivity.
Defined.

(** X3. When the devices of the entry have pairwise different ids, the
    entities that setup adds have pairwise different entity ids and
    pairwise different unique ids. *)
Theorem setup_ids_are_distinct hass entry entries api setup :
  data_domain hass = Some entries ->
  entries !! entry = Some api ->
  List.NoDup (map IntercomDevice.id (devices api)) ->
  fst (async_setup_entry hass entry) = Return setup ->
  List.NoDup (map (fun e => entity_id (camera e)) (added setup)) /\
  List.NoDup (map unique_id (added setup)).
Proof.
  intros Hdomain Hentry Hids Hsetup.
  unfold async_setup_entry in Hsetup. rewrite Hdomain, Hentry in Hsetup.
  destruct (data_ffmpeg hass) as [m|] eqn:Hffmpeg.
  - destruct (create_entities_run hass entry (devices api) m Hffmpeg)
      as (entities & Hrun & Hdevices & Hnew).
    rewrite Hrun in Hsetup. cbn in Hsetup. injection Hsetup as <-.
    cbn [added].
    assert (Hkeys : List.NoDup
                      (map (fun e => IntercomDevice.id (_intercom_device e))
                         entities)).
    { rewrite <- (map_map _intercom_device IntercomDevice.id), Hdevices.
      clear -Hids. induction (devices api) as [|d ds IH]; cbn; [constructor|].
      cbn in Hids. apply NoDup_cons_iff in Hids as [Hnot Hids].
      destruct (IntercomDevice.has_camera d); [|auto].
      cbn. constructor; [|auto].
      intros Hin. apply Hnot. apply in_map_iff in Hin as (x & Hx & Hin).
      apply filter_In in Hin as [Hin _]. apply in_map_iff. eauto. }
    rewrite List.Forall_forall in Hnew.
    split; eapply NoDup_map_by_key; try exact Hkeys.
    + intros x y Hx Hy.
      apply (entity_id_injective hass entry entry _ _ x y); auto.
    + intros x y _ _ Heq. apply unique_id_fields in Heq. tauto.
  - assert (Hnone : forall ds es,
               create_entities hass entry ds = Return es -> es = []).
    { induction ds as [|d ds IH]; cbn; intros es.
      - intros [= <-]. reflexivity.
      - destruct (IntercomDevice.has_camera d); [|apply IH].
        unfold PikIntercomCamera. rewrite Hffmpeg. discriminate. }
    destruct (create_entities hass entry (devices api)) as [es|e] eqn:Hrun;
      [|discriminate].
    apply Hnone in Hrun. subst es. cbn in Hsetup. injection Hsetup as <-.
    split; constructor.
Qed.

Lemma setup_ids_are_distinct_witness :
  List.NoDup (map (fun e => entity_id (camera e)) Fleet.registered) /\
  List.NoDup (map unique_id Fleet.registered).
Proof.
  apply (setup_ids_are_distinct (Fleet.hass (Some tt)) "entry"
           {[ "entry" := Fleet.api ]} Fleet.api
           {| added := Fleet.registered;
              update_before_add := false;
              returned := true |});
    try (vm_compute; reflexivity).
  cbn. repeat (constructor; [cbn; lia|]). constructor.
Defined.

(** X4. Setup for an entry that [hass.data] does not know raises
    [KeyError] after its debug record, and adds nothing. *)
Theorem setup_of_unknown_entry_raises hass entry :
  match data_domain hass with
  | Some entries => entries !! entry = None
  | None => True
  end ->
  async_setup_entry hass entry
  = (Raise (KeyError (match data_domain hass with
                      | Some _ => entry
                      | None => DOMAIN
                      end)),
     [(DEBUG, String.append "Setting up 'camera' platform for entry " entry)]).
Proof.
  unfold async_setup_entry. destruct (data_domain hass) as [entries|].
  - intros ->. reflexivity.
  - reflexivity.
Qed.

Lemma setup_of_unknown_entry_raises_witness :
  async_setup_entry (Fleet.hass (Some tt)) "other"
  = (Raise (KeyError "other"),
     [(DEBUG, "Setting up 'camera' platform for entry other")]).
Proof.
  apply (setup_of_unknown_entry_raises (Fleet.hass (Some tt)) "other").
  vm_compute. reflexivity.
Defined.

(** X5. Without the ffmpeg integration's data, setup raises [KeyError] as
    soon as one device has a camera, and adds nothing; when no device has
    one it adds the empty list and returns true. *)
Theorem setup_without_ffmpeg hass entry entries api :
  data_domain hass = Some entries ->
  entries !! entry = Some api ->
  data_ffmpeg hass = None ->
  fst (async_setup_entry hass entry)
  = if existsb IntercomDevice.has_camera (devices api)
    then Raise (KeyError DATA_FFMPEG)
    else Return {| added := []; update_before_add := false; returned := true |}.
Proof.
  intros Hdomain Hentry Hffmpeg. unfold async_setup_entry.
  rewrite Hdomain, Hentry.
  assert (Hrun : create_entities hass entry (devices api)
                 = if existsb IntercomDevice.has_camera (devices api)
                   then Raise (KeyError DATA_FFMPEG) else Return []).
  { induction (devices api) as [|d ds IH]; cbn; [reflexivity|].
    destruct (IntercomDevice.has_camera d); cbn; [|exact IH].
    unfold PikIntercomCamera. rewrite Hffmpeg. reflexivity. }
  rewrite Hrun.
  destruct (existsb IntercomDevice.has_camera (devices api)); reflexivity.
Qed.

Lemma setup_without_ffmpeg_witness :
  fst (async_setup_entry (Fleet.hass None) "entry") = Raise (KeyError "ffmpeg").
Proof.
  apply (setup_without_ffmpeg (Fleet.hass None) "entry"
           {[ "entry" := Fleet.api ]} Fleet.api);
    vm_compute; reflexivity.
Defined.

(** X6. The entity's name is one of the device's three names, the first
    non-empty one of renamed name, human name and name; it is non-empty
    exactly when one of the three is, so an empty renamed name does not
    hide the others. *)
Theorem name_is_first_non_empty (self : Entity) :
  let d := _intercom_device self in
  truthy (name self)
  = truthy (IntercomDevice.renamed_name d)
    || truthy (IntercomDevice.human_name d)
    || truthy (IntercomDevice.name d) /\
  (truthy (IntercomDevice.renamed_name d) = true ->
   name self = IntercomDevice.renamed_name d) /\
  (truthy (IntercomDevice.renamed_name d) = false ->
   truthy (IntercomDevice.human_name d) = true ->
   name self = IntercomDevice.human_name d) /\
  (truthy (IntercomDevice.renamed_name d) = false ->
   truthy (IntercomDevice.human_name d) = false ->
   name self = IntercomDevice.name d).
Proof.
  cbv zeta. unfold name, py_or.
  destruct (truthy (IntercomDevice.renamed_name (_intercom_device self))) eqn:Hr;
    destruct (truthy (IntercomDevice.human_name (_intercom_device self))) eqn:Hh;
    cbn; rewrite ?Hr, ?Hh; repeat split; congruence.
Qed.

(** ** More on the snapshot endpoint *)

Lemma unconfigured_run width height w self msg :
  truthy (photo_url (intercom_device w)) = true ->
  get_snapshot w = Raise (PikIntercomException msg) ->
  configured_threshold w self = None ->
  async_camera_image width height w self
  = (Raise (KeyError
              match final_config w !! config_entry_id self with
              | Some _ => CONF_RETRIEVAL_ERROR_THRESHOLD
              | None => config_entry_id self
              end),
     with_counter self (failed_retrieval_counter self + 1),
     [GetSnapshot; SetCounter (failed_retrieval_counter self + 1)]).
Proof.
  intros Hphoto Hsnap Hconf.
  rewrite (snapshot_failure_run _ _ _ _ msg Hphoto Hsnap). cbv zeta.
  rewrite retrieval_error_threshold_run, configured_threshold_with_counter, Hconf.
  reflexivity.
Qed.

(** X7. An exception of the snapshot operation that is not a
    [PikIntercomException] is not absorbed: it leaves the fetch as it is,
    and the fetch neither counts it, nor logs, nor refreshes. *)
Theorem foreign_exception_passes_through width height w self e :
  truthy (photo_url (intercom_device w)) = true ->
  get_snapshot w = Raise e ->
  (forall msg, e <> PikIntercomException msg) ->
  async_camera_image width height w self = (Raise e, self, [GetSnapshot]).
Proof. apply snapshot_crash_run. Qed.

Lemma foreign_exception_passes_through_witness :
  async_camera_image None None Fleet.crashing (Examples.camera 2)
  = (Raise (OtherException "cancelled"), Examples.camera 2, [GetSnapshot]).
Proof.
  apply (foreign_exception_passes_through None None Fleet.crashing
           (Examples.camera 2) (OtherException "cancelled"));
    [reflexivity | reflexivity | discriminate].
Defined.

(** X8. While the entry has no configured threshold, every failed fetch
    ends in [KeyError], but only after it was counted: the counter climbs
    by one per poll, without bound, and no refresh is ever requested. *)
Theorem unconfigured_failures_accumulate calls : forall self,
  Forall (fun call =>
            truthy (photo_url (intercom_device (world call))) = true /\
            (exists msg, get_snapshot (world call) = Raise (PikIntercomException msg)) /\
            configured_threshold (world call) self = None)
    calls ->
  Forall (fun step : Step => exists key, result_of (snd step) = Raise (KeyError key))
    (poll self calls) /\
  counters_after (poll self calls)
  = map (fun i => failed_retrieval_counter self + Z.of_nat i) (seq 1 (length calls)) /\
  all_refresh_calls (poll self calls) = [].
Proof.
  induction calls as [|call calls IH]; intros self Hall.
  - repeat split. constructor.
  - inversion Hall as [|? ? (Hphoto & [msg Hsnap] & Hconf) Hrest]; subst.
    cbn [poll length]. unfold counters_after, all_refresh_calls in *.
    rewrite (unconfigured_run _ _ _ _ msg Hphoto Hsnap Hconf).
    cbn [fst snd map flat_map self_after events_of result_of].
    destruct (IH (with_counter self (failed_retrieval_counter self + 1)))
      as (Hraise & Hcounters & Hrefresh).
    { eapply Forall_impl; [exact Hrest|].
      intros c (Hp & Hs & Hc). rewrite configured_threshold_with_counter. auto. }
    cbn [failed_retrieval_counter with_counter] in *.
    split; [|split].
    + constructor; [eexists; reflexivity | exact Hraise].
    + cbn [seq map]. f_equal.
      rewrite Hcounters, <- (seq_shift (length calls) 1), map_map.
      apply map_ext. intros i. lia.
    + rewrite Hrefresh. reflexivity.
Qed.

Lemma unconfigured_failures_accumulate_witness :
  let steps := poll (Examples.camera 0)
                 (repeat (Examples.call Fleet.unconfigured) 7) in
  Forall (fun step : Step => exists key, result_of (snd step) = Raise (KeyError key))
    steps /\
  counters_after steps = [1; 2; 3; 4; 5; 6; 7] /\
  all_refresh_calls steps = [].
Proof.
  apply (unconfigured_failures_accumulate
           (repeat (Examples.call Fleet.unconfigured) 7) (Examples.camera 0)).
  cbn [repeat].
  repeat (apply List.Forall_cons;
          [split; [reflexivity|];
           split; [exists "timeout"; reflexivity | vm_compute; reflexivity]|]).
  apply List.Forall_nil.
Defined.

(** X9. With a photo URL the requested width and height play no part:
    the fetch does the same for any two sizes. *)
Theorem size_is_ignored_with_photo_url width height width' height' w self :
  truthy (photo_url (intercom_device w)) = true ->
  async_camera_image width height w self
  = async_camera_image width' height' w self.
Proof.
  intros Hphoto.
  destruct (get_snapshot w) as [image|[msg|key|other]] eqn:Hsnap.
  - etransitivity; [|symmetry];
      apply (snapshot_success_run _ _ _ _ image Hphoto Hsnap).
  - etransitivity; [|symmetry];
      apply (snapshot_failure_run _ _ _ _ msg Hphoto Hsnap).
  - etransitivity; [|symmetry];
      apply (snapshot_crash_run _ _ _ _ (KeyError key) Hphoto Hsnap); discriminate.
  - etransitivity; [|symmetry];
      apply (snapshot_crash_run _ _ _ _ (OtherException other) Hphoto Hsnap);
      discriminate.
Qed.

Lemma size_is_ignored_with_photo_url_witness :
  async_camera_image (Some 640) (Some 480) Examples.healthy (Examples.camera 1)
  = async_camera_image None (Some 10) Examples.healthy (Examples.camera 1).
Proof.
  apply (size_is_ignored_with_photo_url (Some 640) (Some 480) None (Some 10)
           Examples.healthy (Examples.camera 1)).
  reflexivity.
Defined.

(** X10. The threshold test is "not below": a failed fetch also trips when
    the counter already stands at or above the threshold, as after the
    configured value was lowered.  It writes the count, then 0, and asks
    for one refresh. *)
Theorem overdue_counter_trips width height w self msg v :
  truthy (photo_url (intercom_device w)) = true ->
  get_snapshot w = Raise (PikIntercomException msg) ->
  configured_threshold w self = Some v ->
  Z.max v 5 <= failed_retrieval_counter self + 1 ->
  let run := async_camera_image width height w self in
  failed_retrieval_counter (self_after run) = 0 /\
  counter_writes (events_of run) = [failed_retrieval_counter self + 1; 0] /\
  refresh_calls (events_of run) = [property_id (intercom_device w)].
Proof.
  intros Hphoto Hsnap Hconf Hge run. subst run.
  rewrite (threshold_trip_run _ _ _ _ msg v Hphoto Hsnap Hconf Hge).
  repeat split.
Qed.

Lemma overdue_counter_trips_witness :
  let run := async_camera_image None None Examples.failing (Examples.camera 11) in
  failed_retrieval_counter (self_after run) = 0 /\
  counter_writes (events_of run) = [12; 0] /\
  refresh_calls (events_of run) = [7].
Proof.
  apply (overdue_counter_trips None None Examples.failing (Examples.camera 11)
           "timeout" 3); vm_compute; first [reflexivity | discriminate].
Defined.

(** ** A camera that keeps failing *)

Lemma steady_failures_from n : forall wd ht w self msg v,
  truthy (photo_url (intercom_device w)) = true ->
  get_snapshot w = Raise (PikIntercomException msg) ->
  configured_threshold w self = Some v ->
  0 <= failed_retrieval_counter self < Z.max v 5 ->
  let steps := poll self (repeat {| world := w; width := wd; height := ht |} n) in
  failed_retrieval_counter (final self steps)
  = (failed_retrieval_counter self + Z.of_nat n) mod Z.max v 5 /\
  all_refresh_calls steps
  = repeat (property_id (intercom_device w))
      (Z.to_nat ((failed_retrieval_counter self + Z.of_nat n) / Z.max v 5)).
Proof.
  induction n as [|n IH]; intros wd ht w self msg v Hphoto Hsnap Hconf Hrange;
    cbv zeta.
  - cbn [repeat poll final all_refresh_calls flat_map]. rewrite Z.add_0_r.
    rewrite Z.mod_small, Z.div_small by lia. split; reflexivity.
  - cbn [repeat poll final width height world]. unfold all_refresh_calls.
    cbn [flat_map snd].
    replace (failed_retrieval_counter self + Z.of_nat (S n))
      with (failed_retrieval_counter self + 1 + Z.of_nat n) by lia.
    destruct (Z_lt_le_dec (failed_retrieval_counter self + 1) (Z.max v 5))
      as [Hlt|Hge].
    + rewrite (soft_failure_run _ _ _ _ msg v Hphoto Hsnap Hconf Hlt).
      cbn [fst snd self_after events_of refresh_calls flat_map app].
      destruct (IH wd ht w (with_counter self (failed_retrieval_counter self + 1))
                  msg v Hphoto Hsnap)
        as [Hfinal Hcalls].
      * rewrite configured_threshold_with_counter. exact Hconf.
      * cbn [failed_retrieval_counter with_counter]. lia.
      * cbv zeta in Hfinal, Hcalls. unfold all_refresh_calls in Hcalls.
        cbn [failed_retrieval_counter with_counter] in Hfinal, Hcalls.
        rewrite Hfinal, Hcalls. split; reflexivity.
    + rewrite (threshold_trip_run _ _ _ _ msg v Hphoto Hsnap Hconf Hge).
      cbn [fst snd self_after events_of refresh_calls flat_map app].
      destruct (IH wd ht w (with_counter self 0) msg v Hphoto Hsnap)
        as [Hfinal Hcalls].
      * rewrite configured_threshold_with_counter. exact Hconf.
      * cbn [failed_retrieval_counter with_counter]. lia.
      * cbv zeta in Hfinal, Hcalls. unfold all_refresh_calls in Hcalls.
        cbn [failed_retrieval_counter with_counter] in Hfinal, Hcalls.
        rewrite Hfinal, Hcalls.
        replace (failed_retrieval_counter self + 1 + Z.of_nat n)
          with (0 + Z.of_nat n + 1 * Z.max v 5) by lia.
        rewrite Z_mod_plus_full, Z_div_plus_full by lia.
        split; [reflexivity|].
        rewrite Z2Nat.inj_add by (try apply Z.div_pos; lia).
        rewrite Nat.add_comm. reflexivity.
Qed.

(** X11. A camera that fails at every poll, under a threshold of t, goes
    round in cycles of t polls: after n polls from a counter of 0 the
    counter stands at n mod t and n / t refreshes were requested, each for
    the device's property. *)
Theorem steady_failures_cycle n wd ht w self msg v :
  truthy (photo_url (intercom_device w)) = true ->
  get_snapshot w = Raise (PikIntercomException msg) ->
  configured_threshold w self = Some v ->
  failed_retrieval_counter self = 0 ->
  let steps := poll self (repeat {| world := w; width := wd; height := ht |} n) in
  failed_retrieval_counter (final self steps) = Z.of_nat n mod Z.max v 5 /\
  all_refresh_calls steps
  = repeat (property_id (intercom_device w)) (Z.to_nat (Z.of_nat n / Z.max v 5)).
Proof.
  intros Hphoto Hsnap Hconf Hzero.
  pose proof (steady_failures_from n wd ht w self msg v Hphoto Hsnap Hconf) as H.
  rewrite Hzero in H. apply H. lia.
Qed.

Lemma steady_failures_cycle_witness :
  let steps := poll (Examples.camera 0)
                 (repeat {| world := Examples.failing; width := None;
                            height := None |} 13) in
  failed_retrieval_counter (final (Examples.camera 0) steps) = 13 mod Z.max 3 5 /\
  all_refresh_calls steps = repeat 7 (Z.to_nat (13 / Z.max 3 5)).
Proof.
  apply (steady_failures_cycle 13 None None Examples.failing (Examples.camera 0)
           "timeout" 3); vm_compute; reflexivity.
Defined.

Lemma classify_failed_below self w v :
  classify self w = FetchFailed ->
  configured_threshold w self = Some v ->
  failed_retrieval_counter self + 1 < Z.max v 5.
Proof.
  unfold classify. intros Hkind Hconf. rewrite Hconf in Hkind.
  destruct (negb (truthy (photo_url (intercom_device w)))); [discriminate|].
  destruct (get_snapshot w) as [|[| |]]; try discriminate.
  destruct (failed_retrieval_counter self + 1 <? Z.max v 5) eqn:Hlt;
    [apply Z.ltb_lt; exact Hlt | discriminate].
Qed.

(** A poll never touches the entity id or the entry id. *)
Lemma identity_kept width height w self :
  let run := async_camera_image width height w self in
  entity_id (self_after run) = entity_id self /\
  config_entry_id (self_after run) = config_entry_id self.
Proof.
  cbv zeta.
  destruct (truthy (photo_url (intercom_device w))) eqn:Hphoto.
  - destruct (get_snapshot w) as [image|[msg|key|other]] eqn:Hsnap.
    + rewrite (snapshot_success_run _ _ _ _ image Hphoto Hsnap). split; reflexivity.
    + rewrite (snapshot_failure_run _ _ _ _ msg Hphoto Hsnap). cbv zeta.
      rewrite retrieval_error_threshold_run.
      destruct (configured_threshold w _); [|split; reflexivity].
      destruct (_ <? _); split; reflexivity.
    + rewrite (snapshot_crash_run _ _ _ _ (KeyError key) Hphoto Hsnap)
        by discriminate.
      split; reflexivity.
    + rewrite (snapshot_crash_run _ _ _ _ (OtherException other) Hphoto Hsnap)
        by discriminate.
      split; reflexivity.
  - rewrite (fallback_run _ _ _ _ Hphoto).
    destruct (stream_url (intercom_device w)) as [[|a url]|];
      try (split; reflexivity).
    destruct (ffmpeg_get_image w (String a url) width height) as [[image|]|e];
      split; reflexivity.
Qed.

(** X12. As long as every poll finds a configured threshold, and the
    thresholds in force never exceed a bound T, a counter that starts in
    [0, T) stays in [0, T) after every poll, whatever the polls meet. *)
Theorem counter_stays_below_threshold calls : forall self T,
  0 <= failed_retrieval_counter self < T ->
  Forall (fun call => exists v, configured_threshold (world call) self = Some v /\
                                Z.max v 5 <= T)
    calls ->
  Forall (fun c => 0 <= c < T) (counters_after (poll self calls)).
Proof.
  induction calls as [|call calls IH]; intros self T Hrange Hall;
    cbn [poll counters_after map]; [constructor|].
  inversion Hall as [|? ? (v & Hconf & Hbound) Hrest]; subst.
  pose proof (counter_rule_step (width call) (height call) (world call) self)
    as Hrule. cbv zeta in Hrule.
  assert (Hnext : 0 <= failed_retrieval_counter
                         (self_after (async_camera_image (width call) (height call)
                                        (world call) self)) < T).
  { destruct (classify self (world call)) eqn:Hkind; cbn [counter_rule] in Hrule;
      destruct Hrule as [Hafter _]; try lia.
    pose proof (classify_failed_below _ _ v Hkind Hconf). lia. }
  constructor; [exact Hnext|].
  apply IH; [exact Hnext|].
  eapply Forall_impl; [exact Hrest|].
  intros c (v' & Hc & Hb). exists v'. split; [|exact Hb].
  unfold configured_threshold in *.
  replace (config_entry_id (snd (fst (async_camera_image (width call) (height call)
                                         (world call) self))))
    with (config_entry_id self); [exact Hc|].
  symmetry. apply identity_kept.
Qed.

Lemma counter_stays_below_threshold_witness :
  Forall (fun c => 0 <= c < 5)
    (counters_after
       (poll (Examples.camera 3)
          [Examples.call Examples.failing; Examples.call Examples.failing;
           Examples.call Fleet.crashing; Examples.call Examples.failing;
           Examples.call Examples.healthy])).
Proof.
  apply (counter_stays_below_threshold
           [Examples.call Examples.failing; Examples.call Examples.failing;
            Examples.call Fleet.crashing; Examples.call Examples.failing;
            Examples.call Examples.healthy]
           (Examples.camera 3) 5).
  - cbn. lia.
  - repeat (apply List.Forall_cons;
            [exists 3; split; vm_compute; first [reflexivity | discriminate]|]).
    apply List.Forall_nil.
Defined.

(** X13. With a photo URL a poll asks the snapshot endpoint exactly once
    and never the media helper; it asks for a refresh, once and after the
    snapshot, exactly when the threshold trips. *)
Theorem photo_url_calls width height w self :
  truthy (photo_url (intercom_device w)) = true ->
  let run := async_camera_image width height w self in
  helper_calls (events_of run) = [] /\
  List.filter is_api_call (events_of run)
  = GetSnapshot ::
    match classify self w with
    | ThresholdTripped => [UpdatePropertyIntercoms (property_id (intercom_device w))]
    | _ => []
    end.
Proof.
  intros Hphoto. cbv zeta. unfold classify. rewrite Hphoto. cbn [negb].
  destruct (get_snapshot w) as [image|[msg|key|other]] eqn:Hsnap.
  - rewrite (snapshot_success_run _ _ _ _ image Hphoto Hsnap). split; reflexivity.
  - destruct (configured_threshold w self) as [v|] eqn:Hconf.
    + destruct (failed_retrieval_counter self + 1 <? Z.max v 5) eqn:Hlt.
      * apply Z.ltb_lt in Hlt.
        rewrite (soft_failure_run _ _ _ _ msg v Hphoto Hsnap Hconf Hlt).
        split; reflexivity.
      * apply Z.ltb_ge in Hlt.
        rewrite (threshold_trip_run _ _ _ _ msg v Hphoto Hsnap Hconf Hlt).
        split; reflexivity.
    + rewrite (unconfigured_run _ _ _ _ msg Hphoto Hsnap Hconf). split; reflexivity.
  - rewrite (snapshot_crash_run _ _ _ _ (KeyError key) Hphoto Hsnap) by discriminate.
    split; reflexivity.
  - rewrite (snapshot_crash_run _ _ _ _ (OtherException other) Hphoto Hsnap)
      by discriminate.
    split; reflexivity.
Qed.

Lemma photo_url_calls_witness :
  let run := async_camera_image None None Examples.failing (Examples.camera 4) in
  helper_calls (events_of run) = [] /\
  List.filter is_api_call (events_of run) = [GetSnapshot; UpdatePropertyIntercoms 7].
Proof.
  apply (photo_url_calls None None Examples.failing (Examples.camera 4)).
  reflexivity.
Defined.

(** X14. Bytes that a fetch returns always come from one of its two
    sources: the snapshot operation when the device has a photo URL, the
    media helper asked for the device's stream URL at the given size when
    it has none. *)
Theorem returned_bytes_have_a_source width height w self image :
  result_of (async_camera_image width height w self) = Return (Some image) ->
  (truthy (photo_url (intercom_device w)) = true /\
   get_snapshot w = Return image) \/
  (truthy (photo_url (intercom_device w)) = false /\
   exists url, stream_url (intercom_device w) = Some url /\
               ffmpeg_get_image w url width height = Return (Some image)).
Proof.
  destruct (truthy (photo_url (intercom_device w))) eqn:Hphoto.
  - intros Hresult. left. split; [reflexivity|].
    destruct (get_snapshot w) as [image'|[msg|key|other]] eqn:Hsnap.
    + rewrite (snapshot_success_run _ _ _ _ image' Hphoto Hsnap) in Hresult.
      cbn in Hresult. congruence.
    + rewrite (snapshot_failure_run _ _ _ _ msg Hphoto Hsnap) in Hresult.
      cbv zeta in Hresult. rewrite retrieval_error_threshold_run in Hresult.
      destruct (configured_threshold w _); [|discriminate].
      destruct (_ <? _); [discriminate|].
      cbn in Hresult.
      destruct (update_property_intercoms w _); discriminate.
    + rewrite (snapshot_crash_run _ _ _ _ (KeyError key) Hphoto Hsnap) in Hresult
        by discriminate.
      discriminate.
    + rewrite (snapshot_crash_run _ _ _ _ (OtherException other) Hphoto Hsnap)
        in Hresult by discriminate.
      discriminate.
  - intros Hresult. right. split; [reflexivity|].
    rewrite (fallback_run _ _ _ _ Hphoto) in Hresult.
    destruct (stream_url (intercom_device w)) as [[|a url]|]; try discriminate.
    exists (String a url). split; [reflexivity|].
    destruct (ffmpeg_get_image w (String a url) width height) as [[image'|]|e];
      try discriminate.
    cbn in Hresult. congruence.
Qed.

Lemma returned_bytes_have_a_source_witness :
  (truthy (photo_url (intercom_device Examples.healthy)) = true /\
   get_snapshot Examples.healthy = Return Examples.jpeg) \/
  (truthy (photo_url (intercom_device Examples.healthy)) = false /\
   exists url, stream_url (intercom_device Examples.healthy) = Some url /\
               ffmpeg_get_image Examples.healthy url None None
               = Return (Some Examples.jpeg)).
Proof.
  apply (returned_bytes_have_a_source None None Examples.healthy
           (Examples.camera 0) Examples.jpeg).
  reflexivity.
Defined.

(** ** More on the state attributes *)

Lemma sources_In md k v : In v (sources md k) <-> In (k, v) md.
Proof.
  unfold sources. rewrite in_map_iff. split.
  - intros ([k' v'] & Hv & Hin). cbn in Hv. subst v'.
    apply filter_In in Hin as [Hin Hk]. cbn in Hk.
    apply String.eqb_eq in Hk. subst k'. exact Hin.
  - intros Hin. exists (k, v). split; [reflexivity|].
    apply filter_In. split; [exact Hin|]. cbn. apply String.eqb_refl.
Qed.

Lemma entries_In md k v :
  In (stream_entry k v)
    (flat_map (fun key => map (stream_entry key) (sources md key)) (keys md))
  <-> In (k, v) md.
Proof.
  rewrite in_flat_map. split.
  - intros (key & _ & Hin). apply in_map_iff in Hin as (value & Heq & Hin).
    injection Heq as -> ->. apply sources_In. exact Hin.
  - intros Hin. exists k. split.
    + unfold keys. apply in_map_iff. exists (k, v). auto.
    + apply in_map. apply sources_In. exact Hin.
Qed.

(** X15. The state attributes are always produced, no key lookup of the
    comprehension can fail; they carry the device's photo URL, stream URL
    and face detection flag as they are, and [all_stream_urls] holds a
    {quality, source} entry exactly for the pairs stored in the mapping
    (none when the mapping is absent or empty). *)
Theorem state_attributes_list_the_stored_pairs device :
  exists attrs,
    device_state_attributes device = Return attrs /\
    attr_photo_url attrs = photo_url device /\
    attr_stream_url attrs = stream_url device /\
    attr_face_detection attrs = face_detection device /\
    forall k v,
      In (stream_entry k v) (all_stream_urls attrs)
      <-> exists md, video device = Some md /\ In (k, v) md.
Proof.
  eexists. split; [apply device_state_attributes_run|].
  cbn [attr_photo_url attr_stream_url attr_face_detection all_stream_urls].
  repeat split.
  - destruct (video device) as [md|]; [|contradiction].
    intros Hin. exists md. split; [reflexivity|]. apply entries_In. exact Hin.
  - intros (md & -> & Hin). apply entries_In. exact Hin.
Qed.

Lemma sources_count md k :
  length (sources md k) = count_occ string_dec (keys md) k.
Proof.
  induction md as [|[k' v'] md IH]; [reflexivity|].
  rewrite sources_cons. change (keys ((k', v') :: md)) with (k' :: keys md).
  cbn [count_occ].
  destruct (string_dec k' k) as [Heq|Hne].
  - apply String.eqb_eq in Heq. rewrite Heq. cbn [length]. rewrite IH. reflexivity.
  - apply String.eqb_neq in Hne. rewrite Hne. exact IH.
Qed.

Lemma sum_of_positive_counts (cnt : string -> nat) (ks : list string) :
  (forall k, In k ks -> (1 <= cnt k)%nat) ->
  (length ks <= list_sum (map cnt ks))%nat /\
  (list_sum (map cnt ks) = length ks <-> forall k, In k ks -> cnt k = 1%nat).
Proof.
  induction ks as [|k ks IH]; intros Hpos.
  - cbn. split; [lia|]. split; [intros _ k []|reflexivity].
  - cbn [map length].
    change (list_sum (cnt k :: map cnt ks))
      with (cnt k + list_sum (map cnt ks))%nat.
    destruct IH as [Hle Hiff]; [intros k' Hk'; apply Hpos; right; exact Hk'|].
    pose proof (Hpos k (or_introl eq_refl)) as Hk.
    split; [lia|]. split.
    + intros Hsum k' [<-|Hk']; [lia|]. apply Hiff; [lia | exact Hk'].
    + intros Hone. rewrite (Hone k (or_introl eq_refl)).
      f_equal. apply Hiff. intros k' Hk'. apply Hone. right. exact Hk'.
Qed.

(** X16. [all_stream_urls] never has fewer entries than the mapping has
    sources, and it has exactly as many, one per source, if and only if
    no quality is stored more than once. *)
Theorem one_entry_per_source_iff_no_quality_repeats device md attrs :
  video device = Some md ->
  device_state_attributes device = Return attrs ->
  (length md <= length (all_stream_urls attrs))%nat /\
  (length (all_stream_urls attrs) = length md <-> List.NoDup (keys md)).
Proof.
  intros Hvideo. rewrite device_state_attributes_run, Hvideo. intros [= <-].
  cbn [all_stream_urls]. rewrite length_flat_map.
  assert (Hsum : list_sum
                   (map (fun key => length (map (stream_entry key) (sources md key)))
                      (keys md))
                 = list_sum (map (count_occ string_dec (keys md)) (keys md))).
  { f_equal. apply map_ext. intros k. rewrite length_map. apply sources_count. }
  rewrite Hsum. clear Hsum.
  assert (Hkeys : length (keys md) = length md) by apply length_map.
  destruct (sum_of_positive_counts (count_occ string_dec (keys md)) (keys md))
    as [Hle Hiff].
  { intros k Hk. apply (count_occ_In string_dec) in Hk. lia. }
  rewrite <- Hkeys. split; [exact Hle|].
  rewrite Hiff. symmetry. apply NoDup_count_occ'.
Qed.

Lemma one_entry_per_source_iff_no_quality_repeats_witness :
  (2 <= 4)%nat /\ (4%nat = 2%nat <-> List.NoDup ["high"; "high"]).
Proof.
  apply (one_entry_per_source_iff_no_quality_repeats Examples.lobby
           [("high", "rtsp://pik.example/a"); ("high", "rtsp://pik.example/b")]
           {| attr_photo_url := None;
              attr_stream_url := Some "rtsp://pik.example/a";
              all_stream_urls :=
                [stream_entry "high" "rtsp://pik.example/a";
                 stream_entry "high" "rtsp://pik.example/b";
                 stream_entry "high" "rtsp://pik.example/a";
                 stream_entry "high" "rtsp://pik.example/b"];
              attr_face_detection := false |});
    reflexivity.
Defined.

(** X17. When no quality is stored more than once, [all_stream_urls] is the
    mapping item by item: one {quality, source} entry per source, in the
    order of the mapping. *)
Theorem distinct_qualities_are_listed_in_order device md :
  video device = Some md ->
  List.NoDup (keys md) ->
  device_state_attributes device
  = Return {| attr_photo_url := photo_url device;
              attr_stream_url := stream_url device;
              all_stream_urls :=
                map (fun item => stream_entry (fst item) (snd item)) md;
              attr_face_detection := face_detection device |}.
Proof.
  intros Hvideo Hnodup.
  destruct (stream_url_entries_distinct md Hnodup) as [Hrun Hflat].
  rewrite stream_url_entries_run in Hrun by (intros k Hk; exact Hk).
  injection Hrun as Hrun.
  rewrite device_state_attributes_run, Hvideo, Hrun, Hflat. reflexivity.
Qed.

Lemma distinct_qualities_are_listed_in_order_witness :
  device_state_attributes Examples.door
  = Return {| attr_photo_url := Some "https://pik.example/photo.jpg";
              attr_stream_url := Some "rtsp://pik.example/high";
              all_stream_urls :=
                [stream_entry "high" "rtsp://pik.example/high";
                 stream_entry "low" "rtsp://pik.example/low"];
              attr_face_detection := true |}.
Proof.
  apply (distinct_qualities_are_listed_in_order Examples.door
           [("high", "rtsp://pik.example/high"); ("low", "rtsp://pik.example/low")]).
  - reflexivity.
  - cbn. repeat (constructor; [cbn; intuition discriminate|]). constructor.
Defined.

(** ** Only failures in a row count *)

Lemma poll_app calls1 : forall self calls2,
  poll self (calls1 ++ calls2)
  = poll self calls1 ++ poll (final self (poll self calls1)) calls2.
Proof.
  induction calls1 as [|call calls1 IH]; intros self calls2; [reflexivity|].
  cbn [app poll final]. rewrite IH. reflexivity.
Qed.

Lemma final_app steps1 : forall self steps2,
  final self (steps1 ++ steps2) = final (final self steps1) steps2.
Proof.
  induction steps1 as [|[[before call] run] steps1 IH]; intros self steps2;
    [reflexivity|].
  cbn [app final]. apply IH.
Qed.

Lemma configured_threshold_same_entry w self self' :
  config_entry_id self' = config_entry_id self ->
  configured_threshold w self' = configured_threshold w self.
Proof. unfold configured_threshold. intros ->. reflexivity. Qed.

Lemma final_keeps_entry calls : forall self,
  config_entry_id (final self (poll self calls)) = config_entry_id self.
Proof.
  induction calls as [|call calls IH]; intros self; [reflexivity|].
  cbn [poll final]. rewrite IH. apply identity_kept.
Qed.

(** Soft failures ask for no refresh. *)
Lemma soft_failures_quiet calls : forall self,
  Forall (fun call =>
            truthy (photo_url (intercom_device (world call))) = true /\
            (exists msg, get_snapshot (world call) = Raise (PikIntercomException msg)) /\
            exists v, configured_threshold (world call) self = Some v /\
                      failed_retrieval_counter self + Z.of_nat (length calls)
                        < Z.max v 5)
    calls ->
  all_refresh_calls (poll self calls) = [].
Proof.
  induction calls as [|call calls IH]; intros self Hall; [reflexivity|].
  inversion Hall as [|? ? (Hphoto & [msg Hsnap] & v & Hconf & Hlt) Hrest]; subst.
  cbn [poll length] in *. unfold all_refresh_calls in *. cbn [flat_map snd].
  rewrite (soft_failure_run _ _ _ _ msg v Hphoto Hsnap Hconf) by lia.
  cbn [fst snd events_of refresh_calls flat_map app].
  apply IH. eapply Forall_impl; [exact Hrest|].
  intros c (Hp & Hs & v' & Hc & Hl). repeat split; try assumption.
  exists v'. rewrite configured_threshold_with_counter. split; [exact Hc|].
  cbn [failed_retrieval_counter with_counter]. lia.
Qed.

(** X18. Only failures in a row count.  A run of failures shorter than the
    threshold, one successful fetch, and another run of failures shorter
    than the threshold never ask for a refresh, however many failures the
    two runs have together; at the end the counter holds the length of
    the second run. *)
Theorem success_between_failures_prevents_trip self before ok after :
  failed_retrieval_counter self = 0 ->
  Forall (fun call =>
            truthy (photo_url (intercom_device (world call))) = true /\
            (exists msg, get_snapshot (world call) = Raise (PikIntercomException msg)) /\
            exists v, configured_threshold (world call) self = Some v /\
                      Z.of_nat (length before) < Z.max v 5)
    before ->
  truthy (photo_url (intercom_device (world ok))) = true ->
  (exists image, get_snapshot (world ok) = Return image) ->
  Forall (fun call =>
            truthy (photo_url (intercom_device (world call))) = true /\
            (exists msg, get_snapshot (world call) = Raise (PikIntercomException msg)) /\
            exists v, configured_threshold (world call) self = Some v /\
                      Z.of_nat (length after) < Z.max v 5)
    after ->
  let steps := poll self (before ++ ok :: after) in
  all_refresh_calls steps = [] /\
  failed_retrieval_counter (final self steps) = Z.of_nat (length after).
Proof.
  intros Hzero Hbefore Hphoto [image Hsnap] Hafter. cbv zeta.
  rewrite poll_app. cbn [poll].
  set (mid := final self (poll self before)).
  rewrite (snapshot_success_run _ _ _ _ image Hphoto Hsnap).
  cbn [fst snd].
  assert (Hafter' :
            Forall (fun call =>
                      truthy (photo_url (intercom_device (world call))) = true /\
                      (exists msg, get_snapshot (world call)
                                   = Raise (PikIntercomException msg)) /\
                      exists v, configured_threshold (world call) (with_counter mid 0)
                                = Some v /\
                                failed_retrieval_counter (with_counter mid 0)
                                  + Z.of_nat (length after) < Z.max v 5)
              after).
  { eapply Forall_impl; [exact Hafter|].
    intros c (Hp & Hs & v & Hc & Hl). repeat split; try assumption.
    exists v. split; [|cbn; lia].
    rewrite configured_threshold_with_counter.
    rewrite (configured_threshold_same_entry _ self mid); [exact Hc|].
    apply final_keeps_entry. }
  split.
  - unfold all_refresh_calls. rewrite flat_map_app. cbn [flat_map snd events_of].
    fold (all_refresh_calls (poll self before)).
    fold (all_refresh_calls (poll (with_counter mid 0) after)).
    rewrite (soft_failures_quiet after _ Hafter').
    rewrite soft_failures_quiet; [reflexivity|].
    eapply Forall_impl; [exact Hbefore|].
    intros c (Hp & Hs & v & Hc & Hl). repeat split; try assumption.
    exists v. split; [exact Hc | lia].
  - rewrite final_app. cbn [final self_after fst snd].
    destruct (soft_failures_poll after _ Hafter') as (_ & _ & Hfinal).
    rewrite Hfinal. cbn. lia.
Qed.

Lemma success_between_failures_prevents_trip_witness :
  let steps := poll (Examples.camera 0)
                 (repeat (Examples.call Examples.failing) 4
                    ++ Examples.call Examples.healthy
                    :: repeat (Examples.call Examples.failing) 4) in
  all_refresh_calls steps = [] /\
  failed_retrieval_counter (final (Examples.camera 0) steps) = 4.
Proof.
  apply (success_between_failures_prevents_trip (Examples.camera 0)
           (repeat (Examples.call Examples.failing) 4)
           (Examples.call Examples.healthy)
           (repeat (Examples.call Examples.failing) 4)).
  - reflexivity.
  - cbn [repeat].
    repeat (apply List.Forall_cons;
            [split; [reflexivity|];
             split; [exists "timeout"; reflexivity|];
             exists 3; split; vm_compute; reflexivity|]).
    apply List.Forall_nil.
  - reflexivity.
  - exists Examples.jpeg. reflexivity.
  - cbn [repeat].
    repeat (apply List.Forall_cons;
            [split; [reflexivity|];
             split; [exists "timeout"; reflexivity|];
             exists 3; split; vm_compute; reflexivity|]).
    apply List.Forall_nil.
Defined.
